(** * Power-action controller, teardown cascade and SFTP lister of the wings daemon

    A shallow embedding of

    - package [server], power actions: [PowerAction], [ExecutingPowerAction],
      [HandlePowerAction], [onBeforeStart];
    - package [router], server handlers: [postServerReinstall],
      [deleteServer];
    - package [sftp], [utils.go]: [ListerAt.ListAt].

    Go methods that mutate their receiver become computations in a small
    monad [M] that threads the server object and the state of the
    collaborators, can panic, and writes the calls it makes to a log of
    [Event]s.  The collaborators the code only consumes (backend environment,
    panel synchronisation, filesystem, global configuration) are the fields
    of the class [Collaborators]. *)

From Stdlib Require Import ZArith List String Bool Lia.
Import ListNotations.

Local Open Scope string_scope.
Local Open Scope list_scope.
Local Open Scope Z_scope.

(* ================================================================= *)
(** * golang.org/x/sync/semaphore *)

Module semaphore.

(** [semaphore.Weighted]: [cur] units out of [size] are held.  The queue of
    blocked waiters is not part of the model: a run of one call is
    sequential, and whether a blocked [Acquire] gets the lock before its
    context is done is the collaborators' [HolderReleasesWithin]. *)
Record Weighted : Type := mkWeighted { size : Z; cur : Z }.

Definition NewWeighted (n : Z) : Weighted := {| size := n; cur := 0 |}.

(** [TryAcquire(n)]: takes the units when they are free, never blocks. *)
Definition TryAcquire (n : Z) (s : Weighted) : bool * Weighted :=
  if n <=? size s - cur s
  then (true, {| size := size s; cur := cur s + n |})
  else (false, s).

(** [Release(n)]: [None] is the library's panic
    "semaphore: released more than held". *)
Definition Release (n : Z) (s : Weighted) : option Weighted :=
  if cur s - n <? 0 then None
  else Some {| size := size s; cur := cur s - n |}.

(** The lock is held when no unit is left. *)
Definition held (s : Weighted) : bool := size s - cur s <? 1.

End semaphore.

(* ================================================================= *)
(** * Errors *)

(** The error values that reach a caller of the power controller.
    [Foreign] is an error made by a collaborator (backend environment,
    panel client, filesystem); [WithMessage] is [errors.WithMessage]. *)
Inductive error : Type :=
| ErrServerIsInstalling
| ErrServerIsTransferring
| ErrServerIsRestoring
| ErrIsRunning
| ErrSuspended
| DeadlineExceeded
| New (msg : string)
| WithMessage (cause : error) (msg : string)
| Foreign (msg : string).

(** [errors.Is(err, context.DeadlineExceeded)]: walks the chain of causes. *)
Fixpoint IsDeadlineExceeded (e : error) : bool :=
  match e with
  | DeadlineExceeded => true
  | WithMessage cause _ => IsDeadlineExceeded cause
  | _ => false
  end.

Definition lockMessage : string := "could not acquire lock on power state".

(** The error of a lock that was not obtained (lines 98 and 104). *)
Definition LockTimeout : error := WithMessage DeadlineExceeded lockMessage.

Definition foreign (r : option string) : option error :=
  match r with
  | Some msg => Some (Foreign msg)
  | None => None
  end.

(* ================================================================= *)
(** * Data model *)

(** [environment.Process*State]. *)
Inductive ProcessState : Type :=
| ProcessOfflineState
| ProcessStartingState
| ProcessRunningState
| ProcessStoppingState.

Definition ProcessState_eqb (a b : ProcessState) : bool :=
  match a, b with
  | ProcessOfflineState, ProcessOfflineState
  | ProcessStartingState, ProcessStartingState
  | ProcessRunningState, ProcessRunningState
  | ProcessStoppingState, ProcessStoppingState => true
  | _, _ => false
  end.

(** [os.Signal]; [os_Kill] is [os.Kill]. *)
Inductive Signal : Type := os_Interrupt | os_Kill.

(** [type PowerAction string] and its four constants. *)
Definition PowerAction : Type := string.
Definition PowerActionStart : PowerAction := "start".
Definition PowerActionStop : PowerAction := "stop".
Definition PowerActionRestart : PowerAction := "restart".
Definition PowerActionTerminate : PowerAction := "kill".

Definition IsValid (pa : PowerAction) : bool :=
  String.eqb pa PowerActionStart || String.eqb pa PowerActionStop
  || String.eqb pa PowerActionTerminate || String.eqb pa PowerActionRestart.

Definition IsStart (pa : PowerAction) : bool :=
  String.eqb pa PowerActionStart || String.eqb pa PowerActionRestart.

(** The part of the server's configuration the controller reads. *)
Record Configuration : Type := mkConfiguration {
  Suspended : bool;
  DiskSpaceLimit : Z
}.

(** [server.Server], with the fields the controller, the handlers and the
    accessors below touch. *)
Record Server : Type := mkServer {
  ID : string;
  powerLock : option semaphore.Weighted;
  installing : bool;
  transferring : bool;
  restoring : bool;
  cfg : Configuration;
  fsPath : string;
  ctxCancelled : bool;
  eventsDestroyed : bool;
  websocketsCancelled : bool
}.

(** Work handed to a goroutine and not waited for. *)
Inductive Task : Type :=
| TaskDiskUsage
| TaskRemoveAll (path : string)
| TaskReinstall (id : string).

(** What a run did, in order, with the results it was given. *)
Inductive Event : Type :=
| ELog (msg : string)
| EPublish (msg : string)
| ENewLock
| ETryAcquire (ok : bool)
| EAcquire (seconds : Z) (ok : bool)
| ERelease
| EState (st : ProcessState)
| EStart (r : option string)
| EWaitForStop (seconds : Z) (terminate : bool) (r : option string)
| ETerminate (sig : Signal) (r : option string)
| EDestroy (r : option string)
| ESync (r : option string)
| EIsSuspended (b : bool)
| ESyncWithEnvironment
| EHasSpaceAvailable (allowStale : bool)
| EHasSpaceErr (allowStale : bool) (r : option string)
| EUpdateConfigurationFiles
| EChown (path : string) (r : option string)
| ESetSuspended (b : bool)
| ECtxCancel
| EEventsDestroy
| EWebsocketsCancelAll
| EDownloadCancel (server : string)
| EGo (t : Task)
| EManagerRemove (id : string).

(** The steps of [onBeforeStart]. *)
Definition isPipelineEvent (e : Event) : bool :=
  match e with
  | ELog _ | EPublish _ | ESync _ | EIsSuspended _ | ESyncWithEnvironment
  | EHasSpaceAvailable _ | EHasSpaceErr _ _ | EUpdateConfigurationFiles
  | EChown _ _ | EGo TaskDiskUsage => true
  | _ => false
  end.

Definition isStartEvent (e : Event) : bool :=
  match e with
  | EStart _ => true
  | _ => false
  end.

Definition isLockEvent (e : Event) : bool :=
  match e with
  | ENewLock | ETryAcquire _ | EAcquire _ _ | ERelease => true
  | _ => false
  end.

Definition isBlockingWait (e : Event) : bool :=
  match e with
  | EAcquire _ _ => true
  | _ => false
  end.

(** Calls on the backend environment. *)
Definition isBackendEvent (e : Event) : bool :=
  match e with
  | EState _ | EStart _ | EWaitForStop _ _ _ | ETerminate _ _ | EDestroy _ => true
  | _ => false
  end.

(* ================================================================= *)
(** * Collaborators *)

(** The interfaces the controller drives, over a state [X] of everything
    outside it.  An error is the message of a [Foreign] error. *)
Class Collaborators (X : Type) : Type := {
  (** [environment.ProcessEnvironment] *)
  EnvState : X -> ProcessState;
  EnvStart : X -> X * option string;
  EnvWaitForStop : Z -> bool -> X -> X * option string;
  EnvTerminate : Signal -> X -> X * option string;
  EnvDestroy : X -> X * option string;
  (** [Server.Sync]: pulls the configuration from the panel *)
  PanelSync : Configuration -> X -> X * Configuration * option string;
  (** [Server.SyncWithEnvironment] *)
  EnvSync : Configuration -> X -> X;
  (** [Filesystem.HasSpaceAvailable], [HasSpaceErr], [Chown] *)
  FsHasSpaceAvailable : bool -> X -> X * bool;
  FsHasSpaceErr : bool -> X -> X * option string;
  FsChown : string -> X -> X * option string;
  (** [Server.UpdateConfigurationFiles] *)
  FsUpdateConfigurationFiles : X -> X;
  (** [config.Get().System.CheckPermissionsOnBoot] *)
  CheckPermissionsOnBoot : X -> bool;
  (** The outcome of [powerLock.Acquire] on a held lock, for the wait bound
      [waitSeconds[0]] of the call: whether the lock comes to the caller
      before the context of line 91 is done.  That context lasts
      [time.Second*time.Duration(waitSeconds[0])], a product in int64
      nanoseconds: for a bound of 1 to 9223372036 it ends that many seconds
      later; a negative bound, or a larger one whose product wraps, may
      give a context that is done when it is made, and then the answer is
      [false] whatever the holder does. *)
  HolderReleasesWithin : Z -> X -> bool
}.

(* ================================================================= *)
(** * The monad of the server package *)

(** A call returns or panics. *)
Inductive outcome (A : Type) : Type :=
| Ret (a : A)
| Panic (msg : string).

Arguments Ret {A} a.
Arguments Panic {A} msg.

(** What a method of [*Server] can read and write: the server object, the
    collaborators' state and the goroutines started and not waited for. *)
Record World (X : Type) : Type := mkWorld {
  srv : Server;
  ext : X;
  spawned : list Task
}.

Arguments mkWorld {X} srv ext spawned.
Arguments srv {X} w.
Arguments ext {X} w.
Arguments spawned {X} w.

(** A computation over a state [S]: its result, the state it leaves and
    the events it logged. *)
Definition M (S A : Type) : Type := S -> outcome A * S * list Event.

Definition ret {S A : Type} (a : A) : M S A := fun w => (Ret a, w, []).

Definition bind {S A B : Type} (m : M S A) (k : A -> M S B) : M S B :=
  fun w =>
    match m w with
    | (Ret a, w1, t1) =>
        match k a w1 with
        | (r, w2, t2) => (r, w2, t1 ++ t2)
        end
    | (Panic msg, w1, t1) => (Panic msg, w1, t1)
    end.

Notation "x <- m ;; k" := (bind m (fun x => k))
  (at level 61, m at next level, right associativity).
Notation "m ;;; k" := (bind m (fun _ => k))
  (at level 61, right associativity).

(** [defer d] before the rest [body] of a function: [d] runs when [body]
    is over, also when it panicked. *)
Definition defer {S A : Type} (d : M S unit) (body : M S A) : M S A :=
  fun w =>
    match body w with
    | (r, w1, t1) =>
        match d w1 with
        | (Ret _, w2, t2) => (r, w2, t1 ++ t2)
        | (Panic msg, w2, t2) => (Panic msg, w2, t1 ++ t2)
        end
    end.

Definition emit {S : Type} (e : Event) : M S unit := fun w => (Ret tt, w, [e]).

Definition panic {S A : Type} (msg : string) : M S A := fun w => (Panic msg, w, []).

(** Accessors of the three components of a run. *)
Definition result {S A : Type} (r : outcome A * S * list Event) : outcome A :=
  fst (fst r).
Definition final {S A : Type} (r : outcome A * S * list Event) : S :=
  snd (fst r).
Definition events {S A : Type} (r : outcome A * S * list Event) : list Event :=
  snd r.

(** The methods of [*Server]. *)
Definition SM (X A : Type) : Type := M (World X) A.

Definition getServer {X : Type} : SM X Server := fun w => (Ret (srv w), w, []).

Definition putServer {X : Type} (s : Server) : SM X unit :=
  fun w => (Ret tt, mkWorld s (ext w) (spawned w), []).

Definition getExt {X : Type} : SM X X := fun w => (Ret (ext w), w, []).

Definition putExt {X : Type} (x : X) : SM X unit :=
  fun w => (Ret tt, mkWorld (srv w) x (spawned w), []).

(** A [go] statement: the task is started and nobody waits for it. *)
Definition go {X : Type} (t : Task) : SM X unit :=
  fun w => (Ret tt, mkWorld (srv w) (ext w) (spawned w ++ [t]), [EGo t]).

Definition setPowerLock (l : option semaphore.Weighted) (s : Server) : Server :=
  mkServer (ID s) l (installing s) (transferring s) (restoring s) (cfg s)
           (fsPath s) (ctxCancelled s) (eventsDestroyed s) (websocketsCancelled s).

Definition setCfg (c : Configuration) (s : Server) : Server :=
  mkServer (ID s) (powerLock s) (installing s) (transferring s) (restoring s) c
           (fsPath s) (ctxCancelled s) (eventsDestroyed s) (websocketsCancelled s).

(** Whether the power lock exists and is held. *)
Definition lockHeld (s : Server) : bool :=
  match powerLock s with
  | Some l => semaphore.held l
  | None => false
  end.

(** The lock as [HandlePowerAction] makes it: one unit. *)
Definition binaryLock (s : Server) : Prop :=
  match powerLock s with
  | Some l => semaphore.size l = 1 /\ 0 <= semaphore.cur l <= 1
  | None => True
  end.

(* ================================================================= *)
(** * Package server: the power actions *)

Section Power.

Context {X : Type} `{Collaborators X}.

(** ** The calls the two functions make *)

(** Modelled from the spec: the accessors of the flags [Installing],
    [Transferring], [Restoring] and [Suspended] and of the disk limit of the
    data model; their bodies are elsewhere in the package. *)
Definition IsInstalling : SM X bool := s <- getServer ;; ret (installing s).
Definition IsTransferring : SM X bool := s <- getServer ;; ret (transferring s).
Definition IsRestoring : SM X bool := s <- getServer ;; ret (restoring s).

Definition IsSuspended : SM X bool :=
  s <- getServer ;;
  emit (EIsSuspended (Suspended (cfg s))) ;;;
  ret (Suspended (cfg s)).

Definition DiskSpace : SM X Z := s <- getServer ;; ret (DiskSpaceLimit (cfg s)).

(** [s.powerLock.TryAcquire(1)]; a nil lock is a nil dereference. *)
Definition powerLock_TryAcquire : SM X bool :=
  s <- getServer ;;
  match powerLock s with
  | None => panic "invalid memory address or nil pointer dereference"
  | Some l =>
      match semaphore.TryAcquire 1 l with
      | (true, l') =>
          putServer (setPowerLock (Some l') s) ;;; emit (ETryAcquire true) ;;; ret true
      | (false, _) => emit (ETryAcquire false) ;;; ret false
      end
  end.

(** [s.powerLock.Acquire(ctx, 1)] under the context lines 91-92 make of the
    wait bound [seconds] ([cancel] is deferred and only frees the timer): a
    free lock is taken at once; on a held one the call waits, and either
    gets the lock before the context is done or returns [ctx.Err()], the
    deadline-exceeded error.  Which of the two happens is the
    collaborators' answer [HolderReleasesWithin seconds]: the length of the
    context is the int64 product of line 91 and is not computed here. *)
Definition powerLock_Acquire (seconds : Z) : SM X (option error) :=
  s <- getServer ;;
  match powerLock s with
  | None => panic "invalid memory address or nil pointer dereference"
  | Some l =>
      match semaphore.TryAcquire 1 l with
      | (true, l') =>
          putServer (setPowerLock (Some l') s) ;;;
          emit (EAcquire seconds true) ;;;
          ret None
      | (false, _) =>
          x <- getExt ;;
          if HolderReleasesWithin seconds x then
            emit (EAcquire seconds true) ;;;
            ret None
          else
            emit (EAcquire seconds false) ;;;
            ret (Some DeadlineExceeded)
      end
  end.

(** [s.powerLock.Release(1)]. *)
Definition powerLock_Release : SM X unit :=
  s <- getServer ;;
  match powerLock s with
  | None => panic "invalid memory address or nil pointer dereference"
  | Some l =>
      match semaphore.Release 1 l with
      | None => emit ERelease ;;; panic "semaphore: released more than held"
      | Some l' => putServer (setPowerLock (Some l') s) ;;; emit ERelease
      end
  end.

Definition Environment_State : SM X ProcessState :=
  x <- getExt ;;
  emit (EState (EnvState x)) ;;;
  ret (EnvState x).

Definition Environment_Start : SM X (option error) :=
  x <- getExt ;;
  let (x', r) := EnvStart x in
  putExt x' ;;; emit (EStart r) ;;; ret (foreign r).

Definition Environment_WaitForStop (seconds : Z) (terminate : bool)
  : SM X (option error) :=
  x <- getExt ;;
  let (x', r) := EnvWaitForStop seconds terminate x in
  putExt x' ;;; emit (EWaitForStop seconds terminate r) ;;; ret (foreign r).

Definition Environment_Terminate (sig : Signal) : SM X (option error) :=
  x <- getExt ;;
  let (x', r) := EnvTerminate sig x in
  putExt x' ;;; emit (ETerminate sig r) ;;; ret (foreign r).

Definition Log_Info (msg : string) : SM X unit := emit (ELog msg).

Definition PublishConsoleOutputFromDaemon (msg : string) : SM X unit :=
  emit (EPublish msg).

(** [s.Sync()]: the configuration of the server becomes what the panel
    holds. *)
Definition Sync : SM X (option error) :=
  s <- getServer ;;
  x <- getExt ;;
  match PanelSync (cfg s) x with
  | (x', c', r) =>
      putExt x' ;;; putServer (setCfg c' s) ;;; emit (ESync r) ;;; ret (foreign r)
  end.

Definition SyncWithEnvironment : SM X unit :=
  s <- getServer ;;
  x <- getExt ;;
  putExt (EnvSync (cfg s) x) ;;; emit ESyncWithEnvironment.

(** Modelled from the spec: [Filesystem.HasSpaceAvailable], whose body is
    in the filesystem package.  The spec has it "kick off a usage
    recalculation asynchronously" ("async, no return consumed"): the call
    leaves the recalculation to a goroutine and comes back with the answer
    it has. *)
Definition Filesystem_HasSpaceAvailable (allowStale : bool) : SM X bool :=
  x <- getExt ;;
  let (x', b) := FsHasSpaceAvailable allowStale x in
  putExt x' ;;; emit (EHasSpaceAvailable allowStale) ;;; go TaskDiskUsage ;;; ret b.

Definition Filesystem_HasSpaceErr (allowStale : bool) : SM X (option error) :=
  x <- getExt ;;
  let (x', r) := FsHasSpaceErr allowStale x in
  putExt x' ;;; emit (EHasSpaceErr allowStale r) ;;; ret (foreign r).

Definition UpdateConfigurationFiles : SM X unit :=
  x <- getExt ;;
  putExt (FsUpdateConfigurationFiles x) ;;; emit EUpdateConfigurationFiles.

Definition Filesystem_Chown (path : string) : SM X (option error) :=
  x <- getExt ;;
  let (x', r) := FsChown path x in
  putExt x' ;;; emit (EChown path r) ;;; ret (foreign r).

Definition config_CheckPermissionsOnBoot : SM X bool :=
  x <- getExt ;; ret (CheckPermissionsOnBoot x).

(** ** [ExecutingPowerAction] (lines 44-56) *)

Definition ExecutingPowerAction : SM X bool :=
  s <- getServer ;;
  match powerLock s with
  | None => ret false
  | Some _ =>
      ok <- powerLock_TryAcquire ;;
      (if ok then powerLock_Release else ret tt) ;;;
      ret (negb ok)
  end.

(** ** [onBeforeStart] (lines 164-208) *)

Definition onBeforeStart : SM X (option error) :=
  Log_Info "syncing server configuration with panel" ;;;
  err <- Sync ;;
  match err with
  | Some e =>
      ret (Some (WithMessage e "unable to sync server data from Panel instance"))
  | None =>
      suspended <- IsSuspended ;;
      if suspended then ret (Some ErrSuspended)
      else
        SyncWithEnvironment ;;;
        limit <- DiskSpace ;;
        err <- (if limit <=? 0 then
                  Filesystem_HasSpaceAvailable true ;;; ret None
                else
                  PublishConsoleOutputFromDaemon
                    "Checking server disk space usage, this could take a few seconds..." ;;;
                  Filesystem_HasSpaceErr false) ;;
        match err with
        | Some e => ret (Some e)
        | None =>
            PublishConsoleOutputFromDaemon "Updating process configuration files..." ;;;
            UpdateConfigurationFiles ;;;
            check <- config_CheckPermissionsOnBoot ;;
            if check then
              PublishConsoleOutputFromDaemon
                "Ensuring file permissions are set correctly, this could take a few seconds..." ;;;
              err <- Filesystem_Chown "/" ;;
              match err with
              | Some e =>
                  ret (Some (WithMessage e
                    "failed to chown root server directory during pre-boot process"))
              | None => ret None
              end
            else ret None
        end
  end.

(** ** [HandlePowerAction] (lines 65-160) *)

(** The [switch action] of lines 120-159. *)
Definition powerSwitch (action : PowerAction) : SM X (option error) :=
  if String.eqb action PowerActionStart then
    st <- Environment_State ;;
    if negb (ProcessState_eqb st ProcessOfflineState) then ret (Some ErrIsRunning)
    else
      err <- onBeforeStart ;;
      match err with
      | Some e => ret (Some e)
      | None => Environment_Start
      end
  else if String.eqb action PowerActionStop then
    Environment_WaitForStop (10 * 60) true
  else if String.eqb action PowerActionRestart then
    err <- Environment_WaitForStop (10 * 60) true ;;
    match err with
    | Some e => ret (Some e)
    | None =>
        err <- onBeforeStart ;;
        match err with
        | Some e => ret (Some e)
        | None => Environment_Start
        end
    end
  else if String.eqb action PowerActionTerminate then
    Environment_Terminate os_Kill
  else ret (Some (New "attempting to handle unknown power action")).

(** [waitSeconds ...int] is the list of the optional arguments; the entry
    gate of lines 66-76, the lazy lock of lines 78-80, the lock step of
    lines 87-118 and the switch. *)
Definition HandlePowerAction (action : PowerAction) (waitSeconds : list Z)
  : SM X (option error) :=
  installing <- IsInstalling ;;
  if installing then ret (Some ErrServerIsInstalling)
  else
    transferring <- IsTransferring ;;
    if transferring then ret (Some ErrServerIsTransferring)
    else
      restoring <- IsRestoring ;;
      if restoring then ret (Some ErrServerIsRestoring)
      else
        s <- getServer ;;
        match powerLock s with
        | None =>
            putServer (setPowerLock (Some (semaphore.NewWeighted 1)) s) ;;;
            emit ENewLock
        | Some _ => ret tt
        end ;;;
        if negb (String.eqb action PowerActionTerminate) then
          if (0 <? Z.of_nat (List.length waitSeconds)) && negb (hd 0 waitSeconds =? 0) then
            err <- powerLock_Acquire (hd 0 waitSeconds) ;;
            match err with
            | Some e => ret (Some (WithMessage e lockMessage))
            | None => defer powerLock_Release (powerSwitch action)
            end
          else
            ok <- powerLock_TryAcquire ;;
            if negb ok then ret (Some (WithMessage DeadlineExceeded lockMessage))
            else defer powerLock_Release (powerSwitch action)
        else
          ok <- powerLock_TryAcquire ;;
          if ok then defer powerLock_Release (powerSwitch action)
          else powerSwitch action.

End Power.


(* ================================================================= *)
(** * Package router: the handlers of a server *)

(** A [*server.Server]. *)
Definition ptr : Type := nat.

(** A pending remote download of the [downloader] package. *)
Record Download : Type := mkDownload {
  dlIdentifier : nat;
  dlServer : string;
  dlCancelled : bool
}.

(** What a handler of the router can reach: the server objects, the
    manager's collection of servers, the downloads, the collaborators'
    state and the goroutines started and not waited for. *)
Record Node (X : Type) : Type := mkNode {
  heap : ptr -> Server;
  manager : list ptr;
  downloads : list Download;
  nodeExt : X;
  nodeSpawned : list Task
}.

Arguments mkNode {X} heap manager downloads nodeExt nodeSpawned.
Arguments heap {X} n.
Arguments manager {X} n.
Arguments downloads {X} n.
Arguments nodeExt {X} n.
Arguments nodeSpawned {X} n.

(** The handlers of the router. *)
Definition RM (X A : Type) : Type := M (Node X) A.

(** What a handler leaves in its [*gin.Context]: [c.Status(code)],
    [c.AbortWithStatusJSON(code, gin.H{"error": msg})] or
    [WithError(c, err)], which hands the error to the caller. *)
Inductive Response : Type :=
| Status (code : Z)
| AbortWithStatusJSON (code : Z) (msg : string)
| WithError (err : error).

Definition StatusAccepted : Z := 202.
Definition StatusNoContent : Z := 204.
Definition StatusConflict : Z := 409.

Definition store (s : ptr) (v : Server) (h : ptr -> Server) : ptr -> Server :=
  fun p => if Nat.eqb p s then v else h p.

(** A method called on the server [s] points to: it works on that object,
    and what it leaves is what every holder of the pointer sees. *)
Definition onServer {X A : Type} (s : ptr) (m : SM X A) : RM X A :=
  fun n =>
    match m (mkWorld (heap n s) (nodeExt n) (nodeSpawned n)) with
    | (r, w, t) =>
        (r, mkNode (store s (srv w) (heap n)) (manager n) (downloads n)
                   (ext w) (spawned w), t)
    end.

Definition goNode {X : Type} (t : Task) : RM X unit :=
  fun n =>
    (Ret tt, mkNode (heap n) (manager n) (downloads n) (nodeExt n)
                    (nodeSpawned n ++ [t]), [EGo t]).

Definition setSuspended (b : bool) (s : Server) : Server :=
  setCfg (mkConfiguration b (DiskSpaceLimit (cfg s))) s.

Definition setCtxCancelled (s : Server) : Server :=
  mkServer (ID s) (powerLock s) (installing s) (transferring s) (restoring s)
           (cfg s) (fsPath s) true (eventsDestroyed s) (websocketsCancelled s).

Definition setEventsDestroyed (s : Server) : Server :=
  mkServer (ID s) (powerLock s) (installing s) (transferring s) (restoring s)
           (cfg s) (fsPath s) (ctxCancelled s) true (websocketsCancelled s).

Definition setWebsocketsCancelled (s : Server) : Server :=
  mkServer (ID s) (powerLock s) (installing s) (transferring s) (restoring s)
           (cfg s) (fsPath s) (ctxCancelled s) (eventsDestroyed s) true.

Section Router.

Context {X : Type} `{Collaborators X}.

(** ** Methods of the server the two handlers call *)

(** Modelled from the spec: steps 1 to 4 of the teardown cascade, each a
    method of the server whose body is elsewhere: "Set Suspended = true",
    "Cancel the resource's background-work context", "Destroy the resource's
    event bus", "Cancel every live interactive session". *)
Definition Config_SetSuspended (b : bool) : SM X unit :=
  s <- getServer ;;
  putServer (setSuspended b s) ;;; emit (ESetSuspended b).

Definition CtxCancel : SM X unit :=
  s <- getServer ;;
  putServer (setCtxCancelled s) ;;; emit ECtxCancel.

Definition Events_Destroy : SM X unit :=
  s <- getServer ;;
  putServer (setEventsDestroyed s) ;;; emit EEventsDestroy.

Definition Websockets_CancelAll : SM X unit :=
  s <- getServer ;;
  putServer (setWebsocketsCancelled s) ;;; emit EWebsocketsCancelAll.

(** Modelled from the spec: the identity of the resource, [s.ID()]. *)
Definition Server_ID : SM X string := s <- getServer ;; ret (ID s).

(** Modelled from the spec: where "the resource's on-disk data" is,
    [s.Filesystem().Path()]. *)
Definition Filesystem_Path : SM X string := s <- getServer ;; ret (fsPath s).

Definition Environment_Destroy : SM X (option error) :=
  x <- getExt ;;
  let (x', r) := EnvDestroy x in
  putExt x' ;;; emit (EDestroy r) ;;; ret (foreign r).

(** ** The [downloader] package *)

(** Modelled from the spec: [downloader.ByServer(sid)], the "pending
    external transfer[s] associated with the resource's identity". *)
Definition ByServer (sid : string) : RM X (list Download) :=
  fun n => (Ret (filter (fun d => String.eqb (dlServer d) sid) (downloads n)), n, []).

(** Modelled from the spec: [dl.Cancel()], which marks that transfer
    cancelled. *)
Definition Download_Cancel (dl : Download) : RM X unit :=
  fun n =>
    (Ret tt,
     mkNode (heap n) (manager n)
            (map (fun d => if Nat.eqb (dlIdentifier d) (dlIdentifier dl)
                           then mkDownload (dlIdentifier d) (dlServer d) true
                           else d) (downloads n))
            (nodeExt n) (nodeSpawned n),
     [EDownloadCancel (dlServer dl)]).

(** [for _, dl := range dls { body }]. *)
Fixpoint forEach {A : Type} (l : list A) (body : A -> RM X unit) : RM X unit :=
  match l with
  | [] => ret tt
  | a :: l' => body a ;;; forEach l' body
  end.

(** ** The manager *)

(** Modelled from the spec: [Manager.Remove(filter)], the "Registry
    collaborator: Remove(predicate)" whose body is not part of the three
    files: the collection keeps the servers the predicate rejects. *)
Definition Manager_Remove (sid : string) (match_ : Server -> bool) : RM X unit :=
  fun n =>
    (Ret tt,
     mkNode (heap n) (filter (fun p => negb (match_ (heap n p))) (manager n))
            (downloads n) (nodeExt n) (nodeSpawned n),
     [EManagerRemove sid]).

(** Whether the manager still answers for the pointer [s]. *)
Definition registered (n : Node X) (s : ptr) : bool :=
  existsb (Nat.eqb s) (manager n).

(** Whether the manager has a server of that identifier. *)
Definition registeredID (n : Node X) (sid : string) : bool :=
  existsb (fun p => String.eqb (ID (heap n p)) sid) (manager n).

(** ** [postServerReinstall] (lines 164-181) *)

Definition postServerReinstall (s : ptr) : RM X Response :=
  executing <- onServer s ExecutingPowerAction ;;
  if executing then
    ret (AbortWithStatusJSON StatusConflict
           "Cannot execute server reinstall event while another power action is running.")
  else
    sid <- onServer s Server_ID ;;
    goNode (TaskReinstall sid) ;;;
    ret (Status StatusAccepted).

(** ** [deleteServer] (lines 184-231) *)

Definition deleteServer (s : ptr) : RM X Response :=
  onServer s (Config_SetSuspended true) ;;;
  onServer s CtxCancel ;;;
  onServer s Events_Destroy ;;;
  onServer s Websockets_CancelAll ;;;
  sid <- onServer s Server_ID ;;
  dls <- ByServer sid ;;
  forEach dls Download_Cancel ;;;
  err <- onServer s Environment_Destroy ;;
  match err with
  | Some e => ret (WithError e)
  | None =>
      path <- onServer s Filesystem_Path ;;
      goNode (TaskRemoveAll path) ;;;
      Manager_Remove sid (fun server => String.eqb (ID server) sid) ;;;
      ret (Status StatusNoContent)
  end.

End Router.

(* ================================================================= *)
(** * sftp/utils.go *)

Module sftp.

(** The errors of the package: [io.EOF] and [fxerr]. *)
Inductive err : Type :=
| io_EOF
| fxerr (code : Z).

Definition ErrSSHQuotaExceeded : err := fxerr 15.

(** [fxerr.Error]. *)
Definition Error (e : err) : string :=
  match e with
  | fxerr 15 => "Quota Exceeded"
  | _ => "Failure"
  end.

(** The builtin [copy(dst, src)]: the number of elements copied and the
    destination afterwards. *)
Definition copy {A : Type} (dst src : list A) : Z * list A :=
  let n := Nat.min (List.length dst) (List.length src) in
  (Z.of_nat n, firstn n src ++ skipn n dst).

(** The slice expression [l[offset:]]; out of range it panics. *)
Definition sliceFrom {A : Type} (l : list A) (offset : Z) : outcome (list A) :=
  if (offset <? 0) || (Z.of_nat (List.length l) <? offset)
  then Panic "slice bounds out of range"
  else Ret (skipn (Z.to_nat offset) l).

(** [ListerAt.ListAt] (lines 19-29) over entries of type [A] (the
    [os.FileInfo] values): the count, the error and the buffer [f] as the
    call leaves it. *)
Definition ListAt {A : Type} (l : list A) (f : list A) (offset : Z)
  : outcome (Z * option err * list A) :=
  if offset >=? Z.of_nat (List.length l) then Ret (0, Some io_EOF, f)
  else
    match sliceFrom l offset with
    | Panic msg => Panic msg
    | Ret tail =>
        let (n, f') := copy f tail in
        if n <? Z.of_nat (List.length f) then Ret (n, Some io_EOF, f')
        else Ret (n, None, f')
    end.

End sftp.


(* ================================================================= *)
(** * Scripted collaborators *)

(** Collaborators that answer every call from a fixed script; the state of
    the outside world is the script itself. *)
Record Script : Type := mkScript {
  scState : ProcessState;
  scStart : option string;
  scWaitForStop : option string;
  scTerminate : option string;
  scDestroy : option string;
  scSync : option string;
  scPanel : option Configuration;
  scHasSpace : bool;
  scHasSpaceErr : option string;
  scChown : option string;
  scCheckPermissions : bool;
  scHolderReleases : bool
}.

#[export] Instance scripted : Collaborators Script := {
  EnvState x := scState x;
  EnvStart x := (x, scStart x);
  EnvWaitForStop _ _ x := (x, scWaitForStop x);
  EnvTerminate _ x := (x, scTerminate x);
  EnvDestroy x := (x, scDestroy x);
  PanelSync c x :=
    (x, match scPanel x with Some c' => c' | None => c end, scSync x);
  EnvSync _ x := x;
  FsHasSpaceAvailable _ x := (x, scHasSpace x);
  FsHasSpaceErr _ x := (x, scHasSpaceErr x);
  FsChown _ x := (x, scChown x);
  FsUpdateConfigurationFiles x := x;
  CheckPermissionsOnBoot x := scCheckPermissions x;
  HolderReleasesWithin _ x := scHolderReleases x
}.

(** A quiet world: the backend is offline and every call succeeds. *)
Definition quiet : Script :=
  mkScript ProcessOfflineState None None None None None None true None None
           false false.

(** A server that was never started: no lock yet, no flag set, a disk limit
    of [limit] megabytes. *)
Definition freshServer (limit : Z) : Server :=
  mkServer "srv-1" None false false false (mkConfiguration false limit)
           "/var/lib/pterodactyl/volumes/srv-1" false false false.

(** The same server while another power action holds its lock. *)
Definition busyServer (limit : Z) : Server :=
  setPowerLock (Some (semaphore.mkWeighted 1 1)) (freshServer limit).

(** The same server with its lock created and free. *)
Definition idleServer (limit : Z) : Server :=
  setPowerLock (Some (semaphore.mkWeighted 1 0)) (freshServer limit).

Definition setInstalling (b : bool) (s : Server) : Server :=
  mkServer (ID s) (powerLock s) b (transferring s) (restoring s) (cfg s)
           (fsPath s) (ctxCancelled s) (eventsDestroyed s) (websocketsCancelled s).

(* ================================================================= *)
(** * Vocabulary of the statements *)

(** The entry gate of [HandlePowerAction] (lines 66-76) lets the call
    through. *)
Definition passesGate (s : Server) : bool :=
  negb (installing s) && negb (transferring s) && negb (restoring s).

(** A wait bound was given and is not zero (line 90). *)
Definition waits (waitSeconds : list Z) : bool :=
  (0 <? Z.of_nat (List.length waitSeconds)) && negb (hd 0 waitSeconds =? 0).

(** The lock step of a non-terminate action gets the lock: it is free, or
    the call waits and its blocked [Acquire] gets the lock before the
    context is done. *)
Definition obtainsLock {X : Type} `{Collaborators X}
  (waitSeconds : list Z) (w : World X) : bool :=
  negb (lockHeld (srv w))
  || (waits waitSeconds && HolderReleasesWithin (hd 0 waitSeconds) (ext w)).

(** The lock events of a non-terminate action that gets the lock, up to the
    [switch]. *)
Definition lockPrelude (waitSeconds : list Z) (s : Server) : list Event :=
  match powerLock s with
  | None => [ENewLock]
  | Some _ => []
  end ++
  (if waits waitSeconds then [EAcquire (hd 0 waitSeconds) true]
   else [ETryAcquire true]).

(** The server while the call holds its lock, and after it let go. *)
Definition acquired (s : Server) : Server :=
  setPowerLock (Some (semaphore.mkWeighted 1 1)) s.

Definition released (s : Server) : Server :=
  setPowerLock (Some (semaphore.mkWeighted 1 0)) s.

(** No event of the list is of the kind [p]. *)
Definition noneOf (p : Event -> bool) (l : list Event) : bool :=
  forallb (fun e => negb (p e)) l.

Definition syncMessage : string := "unable to sync server data from Panel instance".

Definition chownMessage : string :=
  "failed to chown root server directory during pre-boot process".

(** The world with another server object in it. *)
Definition withServer {X : Type} (s : Server) (w : World X) : World X :=
  mkWorld s (ext w) (spawned w).

(** What [Start] does once the backend is found offline, and [Restart]
    once the stop-wait is over (lines 127-131 and 150-154): the pipeline,
    then [Start()] when the pipeline has no objection. *)
Definition startPhase {X : Type} `{Collaborators X} : SM X (option error) :=
  err <- onBeforeStart ;;
  match err with
  | Some e => ret (Some e)
  | None => Environment_Start
  end.

(** A backend that is running. *)
Definition running : Script :=
  mkScript ProcessRunningState None None None None None None true None None
           false false.

(** A backend whose stop-wait fails. *)
Definition stuck : Script :=
  mkScript ProcessRunningState None (Some "context deadline exceeded") None None
           None None true None None false false.

(** Every look at the suspended flag comes after a synchronisation that
    succeeded; [synced] tells whether one was seen already. *)
Fixpoint syncedFirst (synced : bool) (l : list Event) : bool :=
  match l with
  | [] => true
  | ESync None :: l' => syncedFirst true l'
  | EIsSuspended _ :: l' => synced && syncedFirst synced l'
  | _ :: l' => syncedFirst synced l'
  end.

Definition syncLog : string := "syncing server configuration with panel".

(** A panel that answers that the server is suspended. *)
Definition suspending : Script :=
  mkScript ProcessOfflineState None None None None None
           (Some (mkConfiguration true 0)) true None None false false.

(** A panel that cannot be reached. *)
Definition unreachable : Script :=
  mkScript ProcessOfflineState None None None None (Some "panel: 503") None
           true None None false false.

Definition checkingMessage : string :=
  "Checking server disk space usage, this could take a few seconds...".

Definition updatingMessage : string := "Updating process configuration files...".

Definition ensuringMessage : string :=
  "Ensuring file permissions are set correctly, this could take a few seconds...".

(** The last step of the pipeline (lines 199-205) from the state [x] of the
    collaborators: its error, the state it leaves and its events. *)
Definition permissionStep {X : Type} `{Collaborators X} (x : X)
  : option error * X * list Event :=
  if CheckPermissionsOnBoot x then
    (match snd (FsChown "/" x) with
     | Some msg => Some (WithMessage (Foreign msg) chownMessage)
     | None => None
     end,
     fst (FsChown "/" x),
     [EPublish ensuringMessage; EChown "/" (snd (FsChown "/" x))])
  else (None, x, []).

(** A filesystem over its quota. *)
Definition full : Script :=
  mkScript ProcessOfflineState None None None None None None false
           (Some "filesystem: not enough disk space") None false false.

(** The server object once the cancellations of the teardown are done. *)
Definition torn (v : Server) : Server :=
  setWebsocketsCancelled (setEventsDestroyed (setCtxCancelled (setSuspended true v))).

(** The events of the teardown up to the destruction of the environment,
    for a server of identifier [sid] and the downloads [dls] of the node. *)
Definition teardownPrelude (sid : string) (dls : list Download) : list Event :=
  [ESetSuspended true; ECtxCancel; EEventsDestroy; EWebsocketsCancelAll]
  ++ map (fun d => EDownloadCancel (dlServer d))
         (filter (fun d => String.eqb (dlServer d) sid) dls).

(** A node with two servers, the first one in the middle of a power action,
    and a download pending for it. *)
Definition twoServers (x : Script) : Node Script :=
  mkNode (fun p => match p with
                   | O => busyServer 0
                   | _ => mkServer "srv-2" None false false false
                            (mkConfiguration false 0)
                            "/var/lib/pterodactyl/volumes/srv-2" false false false
                   end)
         [0%nat; 1%nat]
         [mkDownload 7 "srv-1" false]
         x [].

(** An environment that cannot be destroyed. *)
Definition undestroyable : Script :=
  mkScript ProcessRunningState None None None (Some "docker: container in use")
           None None true None None false false.

Definition reinstallConflict : string :=
  "Cannot execute server reinstall event while another power action is running.".

(** A world with no goroutine started yet. *)
Definition world (s : Server) (x : Script) : World Script := mkWorld s x [].

(** A server in the middle of an installation while a power action holds
    its lock. *)
Definition installingServer : Server := setInstalling true (busyServer 0).

(* ================================================================= *)
(** * Package router: the other handlers of a server *)

(** What the handlers below consume besides the [Collaborators]:
    [strconv.Atoi] (its first result; the handler drops the error),
    [Server.ReadLogfile], [Server.UpdateDataStructure] and the backend's
    [IsRunning] and [SendCommand]. *)
Class Requests (X : Type) : Type := {
  Atoi : string -> Z;
  ReadLogfile : Z -> X -> X * list string * option string;
  UpdateDataStructure :
    string -> Configuration -> X -> X * Configuration * option string;
  EnvIsRunning : X -> X * bool * option string;
  EnvSendCommand : string -> X -> X * option string
}.

(** What these handlers leave in their [*gin.Context]: one of the answers
    of [Response]; [NewServerError(err, s).Abort(c)];
    [c.JSON(code, gin.H{"data": out})]; or nothing of their own, when
    [c.BindJSON] failed and has answered 400 itself. *)
Inductive Reply : Type :=
| Answered (r : Response)
| ServerError (err : error)
| JSON (code : Z) (data : list string)
| BindFailed.

(** A goroutine started with [go] around a method of a server. *)
Inductive Job : Type :=
| JobPowerAction (s : ptr) (action : PowerAction) (waitSeconds : list Z).

(** The node and the goroutines of that kind started so far. *)
Record Daemon (X : Type) : Type := mkDaemon {
  node : Node X;
  jobs : list Job
}.

Arguments mkDaemon {X} node jobs.
Arguments node {X} d.
Arguments jobs {X} d.

Definition DM (X A : Type) : Type := M (Daemon X) A.

Definition onNode {X A : Type} (m : RM X A) : DM X A :=
  fun d =>
    match m (node d) with
    | (r, n, t) => (r, mkDaemon n (jobs d), t)
    end.

Definition goJob {X : Type} (j : Job) : DM X unit :=
  fun d => (Ret tt, mkDaemon (node d) (jobs d ++ [j]), []).

Definition StatusOK : Z := 200.
Definition StatusBadRequest : Z := 400.
Definition StatusUnprocessableEntity : Z := 422.
Definition StatusBadGateway : Z := 502.

Definition quote : string := String (Ascii.ascii_of_nat 34) EmptyString.

(** The message of line 66. *)
Definition invalidActionMessage : string :=
  "The power action provided was not valid, should be one of "
  ++ quote ++ "stop" ++ quote ++ ", " ++ quote ++ "start" ++ quote ++ ", "
  ++ quote ++ "restart" ++ quote ++ ", " ++ quote ++ "kill" ++ quote.

Definition suspendedMessage : string :=
  "Cannot start or restart a server that is suspended.".

Definition stoppedMessage : string :=
  "Cannot send commands to a stopped server instance.".

Definition sendFailedMessage : string := "failed to send command to server instance".

Section Handlers.

Context {X : Type} `{Collaborators X} `{Requests X}.

Definition Server_ReadLogfile (l : Z) : SM X (list string * option error) :=
  x <- getExt ;;
  match ReadLogfile l x with
  | (x', out, r) => putExt x' ;;; ret (out, foreign r)
  end.

(** [s.UpdateDataStructure(buf.Bytes())]: the configuration of the server
    becomes what the call leaves. *)
Definition Server_UpdateDataStructure (body : string) : SM X (option error) :=
  s <- getServer ;;
  x <- getExt ;;
  match UpdateDataStructure body (cfg s) x with
  | (x', c', r) => putExt x' ;;; putServer (setCfg c' s) ;;; ret (foreign r)
  end.

Definition Environment_IsRunning : SM X (bool * option error) :=
  x <- getExt ;;
  match EnvIsRunning x with
  | (x', running, r) => putExt x' ;;; ret (running, foreign r)
  end.

Definition Environment_SendCommand (command : string) : SM X (option error) :=
  x <- getExt ;;
  let (x', r) := EnvSendCommand command x in
  putExt x' ;;; ret (foreign r).

(** [s.Log().WithFields(...).Warn(msg)]. *)
Definition Log_Warn (msg : string) : SM X unit := emit (ELog msg).

(** ** [getServerLogs] (lines 26-43) *)

(** [query] is the [size] parameter of the request, when it has one. *)
Definition getServerLogs (query : option string) (s : ptr) : RM X Reply :=
  let l := Atoi (match query with Some v => v | None => "100" end) in
  let l := if l <=? 0 then 100 else if 100 <? l then 100 else l in
  r <- onServer s (Server_ReadLogfile l) ;;
  match r with
  | (_, Some e) => ret (ServerError e)
  | (out, None) => ret (JSON StatusOK out)
  end.

(** ** [postServerPower] (lines 53-100) *)

(** [body] is what [c.BindJSON(&data)] leaves in [data.Action]; [None]
    when it fails, and then it has answered itself.  The goroutine of
    lines 87-97 is the job that calls [HandlePowerAction(action, 30)]. *)
Definition postServerPower (body : option PowerAction) (s : ptr) : DM X Reply :=
  match body with
  | None => ret BindFailed
  | Some action =>
      if negb (IsValid action) then
        ret (Answered (AbortWithStatusJSON StatusUnprocessableEntity
                         invalidActionMessage))
      else
        suspended <-
          (if String.eqb action PowerActionStart
              || String.eqb action PowerActionRestart
           then onNode (onServer s IsSuspended)
           else ret false) ;;
        if suspended then
          ret (Answered (AbortWithStatusJSON StatusBadRequest suspendedMessage))
        else
          goJob (JobPowerAction s action [30]) ;;;
          ret (Answered (Status StatusAccepted))
  end.

(** ** [postServerCommands] (lines 103-131) *)

(** [body] is what [c.BindJSON(&data)] leaves in [data.Commands]. *)
Definition postServerCommands (body : option (list string)) (s : ptr)
  : RM X Reply :=
  r <- onServer s Environment_IsRunning ;;
  match r with
  | (_, Some e) => ret (ServerError e)
  | (running, None) =>
      if negb running then
        ret (Answered (AbortWithStatusJSON StatusBadGateway stoppedMessage))
      else
        match body with
        | None => ret BindFailed
        | Some commands =>
            forEach commands
              (fun command =>
                 err <- onServer s (Environment_SendCommand command) ;;
                 match err with
                 | Some _ => onServer s (Log_Warn sendFailedMessage)
                 | None => ret tt
                 end) ;;;
            ret (Answered (Status StatusNoContent))
        end
  end.

(** ** [patchServer] (lines 134-148) *)

Definition patchServer (body : string) (s : ptr) : RM X Reply :=
  err <- onServer s (Server_UpdateDataStructure body) ;;
  match err with
  | Some e => ret (ServerError e)
  | None =>
      onServer s SyncWithEnvironment ;;;
      ret (Answered (Status StatusNoContent))
  end.

End Handlers.

(** ** Scripted requests *)

(** Decimal digits to a number; anything else makes the whole [None]. *)
Fixpoint digits (acc : Z) (s : string) : option Z :=
  match s with
  | EmptyString => Some acc
  | String c rest =>
      let n := Z.of_nat (Ascii.nat_of_ascii c) in
      if (48 <=? n) && (n <=? 57) then digits (10 * acc + (n - 48)) rest
      else None
  end.

(** The number [strconv.Atoi] returns, its error dropped as the handlers
    drop it: an optional sign and one decimal digit or more give their
    value, or the nearest int64 when it is out of range; anything else
    gives [0]. *)
Definition strconv_Atoi (v : string) : Z :=
  let number (negative : bool) (body : string) : Z :=
    match body with
    | EmptyString => 0
    | _ =>
        match digits 0 body with
        | Some n =>
            Z.max (-9223372036854775808)
                  (Z.min 9223372036854775807 (if negative then - n else n))
        | None => 0
        end
    end in
  match v with
  | EmptyString => 0
  | String c rest =>
      if Nat.eqb (Ascii.nat_of_ascii c) 45 then number true rest
      else if Nat.eqb (Ascii.nat_of_ascii c) 43 then number false rest
      else number false v
  end.

(** Requests over a [Script]: sizes are read as [strconv.Atoi] reads them,
    the log has two lines, an empty body is not a configuration, the
    backend runs unless it is offline, and the empty command is the one it
    refuses. *)
#[export] Instance scriptedRequests : Requests Script := {
  Atoi v := strconv_Atoi v;
  ReadLogfile l x := (x, ["[12:00:00] starting"; "[12:00:01] done"], None);
  UpdateDataStructure body c x :=
    (x, c, if String.eqb body "" then Some "unexpected end of JSON input" else None);
  EnvIsRunning x :=
    (x, negb (ProcessState_eqb (scState x) ProcessOfflineState), None);
  EnvSendCommand command x :=
    (x, if String.eqb command "" then Some "empty command" else None)
}.

(** The node of [twoServers] with no goroutine of the handlers started. *)
Definition daemon (x : Script) : Daemon Script := mkDaemon (twoServers x) [].

(* ================================================================= *)
(** * Vocabulary of the further statements *)

(** The lock events that take the lock, and the one that lets go. *)
Definition isAcquisition (e : Event) : bool :=
  match e with
  | ETryAcquire true | EAcquire _ true => true
  | _ => false
  end.

Definition isRelease (e : Event) : bool :=
  match e with
  | ERelease => true
  | _ => false
  end.

Definition count (p : Event -> bool) (l : list Event) : nat :=
  List.length (filter p l).

(** A fail-fast step of the pipeline reports a failure. *)
Definition isFailure (e : Event) : bool :=
  match e with
  | ESync (Some _) | EIsSuspended true | EHasSpaceErr _ (Some _)
  | EChown _ (Some _) => true
  | _ => false
  end.

Definition isChown (e : Event) : bool :=
  match e with
  | EChown _ _ => true
  | _ => false
  end.

Definition unknownActionMessage : string := "attempting to handle unknown power action".

(** The error a fail-fast step of the pipeline makes of its failure. *)
Definition failureOf (e : Event) : option error :=
  match e with
  | ESync (Some msg) => Some (WithMessage (Foreign msg) syncMessage)
  | EIsSuspended true => Some ErrSuspended
  | EHasSpaceErr _ (Some msg) => Some (Foreign msg)
  | EChown _ (Some msg) => Some (WithMessage (Foreign msg) chownMessage)
  | _ => None
  end.

(** No step of the list failed. *)
Definition noFailure (l : list Event) : bool :=
  forallb (fun e => match failureOf e with None => true | Some _ => false end) l.

(** A backend that refuses to start. *)
Definition refusing : Script :=
  mkScript ProcessOfflineState (Some "docker: no such image") None None None
           None None true None None false false.

(** A held lock that comes to a blocked [Acquire] before its context is
    done. *)
Definition yielding : Script :=
  mkScript ProcessRunningState None None None None None None true None None
           false true.

(** A server in the middle of a transfer and of a restore. *)
Definition transferringServer : Server :=
  mkServer "srv-1" None false true true (mkConfiguration false 0)
           "/var/lib/pterodactyl/volumes/srv-1" false false false.

(** A reader of a listing: it calls [ListAt] with its buffer, takes the
    entries the call counted, moves the offset on by the count, and stops
    at the first error; [fuel] bounds the number of calls. *)
Fixpoint readListing {A : Type} (fuel : nat) (l buf : list A) (offset : Z)
  : option (list A) :=
  match fuel with
  | O => None
  | S fuel' =>
      match sftp.ListAt l buf offset with
      | Panic _ => None
      | Ret (n, Some _, buf') => Some (firstn (Z.to_nat n) buf')
      | Ret (n, None, buf') =>
          match readListing fuel' l buf' (offset + n) with
          | Some rest => Some (firstn (Z.to_nat n) buf' ++ rest)
          | None => None
          end
      end
  end.

(** Every event that is not a lock event comes while the call holds the
    lock: after an acquisition of its own and before its release; [held]
    tells whether the call holds the lock at the head of the list. *)
Fixpoint underLock (held : bool) (l : list Event) : bool :=
  match l with
  | [] => true
  | e :: l' =>
      if isAcquisition e then underLock true l'
      else if isRelease e then underLock false l'
      else if isLockEvent e then underLock held l'
      else held && underLock held l'
  end.

(* ================================================================= *)
(** * Proofs *)

(** Runs the monad: unfolds the program and the monad, and nothing of the
    arithmetic or of the strings. *)
Ltac run :=
  cbv beta iota zeta delta
    [result final events bind ret defer emit panic getServer putServer getExt
     putExt go fst snd negb andb orb
     IsInstalling IsTransferring IsRestoring IsSuspended DiskSpace
     powerLock_TryAcquire powerLock_Acquire powerLock_Release
     Environment_State Environment_Start Environment_WaitForStop
     Environment_Terminate Log_Info PublishConsoleOutputFromDaemon Sync
     SyncWithEnvironment Filesystem_HasSpaceAvailable Filesystem_HasSpaceErr
     UpdateConfigurationFiles Filesystem_Chown config_CheckPermissionsOnBoot
     ExecutingPowerAction onBeforeStart powerSwitch HandlePowerAction
     srv ext spawned setPowerLock setCfg lockHeld binaryLock withServer
     passesGate acquired released
     ID powerLock installing transferring restoring cfg fsPath ctxCancelled
     eventsDestroyed websocketsCancelled foreign ProcessState_eqb
     semaphore.TryAcquire semaphore.Release semaphore.held semaphore.size
     semaphore.cur semaphore.NewWeighted];
  cbn [app].

(** Recalls the answer of a call that was met before. *)
Ltac recall :=
  match goal with
  | E : ?call = (_, _) |- context [?call] => rewrite E
  end.

(** Names the answer of the next collaborator the goal is stuck on. *)
Ltac split_call :=
  match goal with
  | |- context [PanelSync ?c ?x] => destruct (PanelSync c x) as [[? ?] [?|]] eqn:?
  | |- context [EnvStart ?x] => destruct (EnvStart x) as [? [?|]] eqn:?
  | |- context [EnvWaitForStop ?a ?b ?x] =>
      destruct (EnvWaitForStop a b x) as [? [?|]] eqn:?
  | |- context [EnvTerminate ?a ?x] => destruct (EnvTerminate a x) as [? [?|]] eqn:?
  | |- context [EnvDestroy ?x] => destruct (EnvDestroy x) as [? [?|]] eqn:?
  | |- context [FsHasSpaceAvailable ?a ?x] =>
      destruct (FsHasSpaceAvailable a x) as [? ?] eqn:?
  | |- context [FsHasSpaceErr ?a ?x] => destruct (FsHasSpaceErr a x) as [? [?|]] eqn:?
  | |- context [FsChown ?a ?x] => destruct (FsChown a x) as [? [?|]] eqn:?
  | |- context [CheckPermissionsOnBoot ?x] => destruct (CheckPermissionsOnBoot x) eqn:?
  | |- context [HolderReleasesWithin ?a ?x] => destruct (HolderReleasesWithin a x) eqn:?
  | |- context [EnvState ?x] => destruct (EnvState x) eqn:?
  | |- context [Suspended ?c] => destruct (Suspended c) eqn:?
  | |- context [DiskSpaceLimit ?c <=? 0] => destruct (DiskSpaceLimit c <=? 0) eqn:?
  | |- context [String.eqb ?a ?b] => destruct (String.eqb a b) eqn:?
  end.

(** Opens a world down to the fields of its server. *)
Ltac open_world w :=
  let s := fresh "s" in
  destruct w as [s ? ?]; destruct s as [? [[? ?]|] ? ? ? ? ? ? ? ?].

(** Runs the lock step and leaves the deferred release and the switch
    folded. *)
Ltac run_lock :=
  cbv beta iota zeta delta
    [bind ret emit panic getServer putServer getExt putExt fst snd negb andb orb
     IsInstalling IsTransferring IsRestoring powerLock_TryAcquire
     powerLock_Acquire HandlePowerAction srv ext spawned setPowerLock
     powerLock installing transferring restoring semaphore.NewWeighted];
  cbn [app].

(** ** The semaphore *)

Lemma TryAcquire_held (l : semaphore.Weighted) :
  fst (semaphore.TryAcquire 1 l) = negb (semaphore.held l).
Proof.
  unfold semaphore.TryAcquire, semaphore.held.
  destruct (1 <=? semaphore.size l - semaphore.cur l) eqn:E;
    destruct (semaphore.size l - semaphore.cur l <? 1) eqn:F;
    cbn [fst negb]; try reflexivity; lia.
Qed.

Lemma TryAcquire_Release (l l' : semaphore.Weighted) :
  0 <= semaphore.cur l ->
  semaphore.TryAcquire 1 l = (true, l') ->
  semaphore.Release 1 l' = Some l.
Proof.
  intros Hc. unfold semaphore.TryAcquire, semaphore.Release.
  destruct l as [sz cu]; cbn [semaphore.size semaphore.cur] in *.
  destruct (1 <=? sz - cu); [|discriminate].
  intros E; injection E as <-; cbn [semaphore.size semaphore.cur].
  destruct (cu + 1 - 1 <? 0) eqn:F; [lia|].
  f_equal. f_equal. lia.
Qed.

Section PowerProofs.

Context {X : Type} `{Collaborators X}.

(** ** What the pipeline and the switch leave alone *)

Lemma onBeforeStart_frame (w : World X) :
  powerLock (srv (final (onBeforeStart w))) = powerLock (srv w)
  /\ exists v, result (onBeforeStart w) = Ret v.
Proof.
  open_world w; run; repeat (split_call; run); split; eauto.
Qed.

Lemma powerSwitch_frame (a : PowerAction) (w : World X) :
  powerLock (srv (final (powerSwitch a w))) = powerLock (srv w)
  /\ exists v, result (powerSwitch a w) = Ret v.
Proof.
  open_world w; run; repeat (split_call; run); split; eauto.
Qed.

(** Releasing after the switch: the lock the call took is still there. *)
Lemma defer_Release_powerSwitch (a : PowerAction) (w : World X) :
  powerLock (srv w) = Some (semaphore.mkWeighted 1 1) ->
  defer powerLock_Release (powerSwitch a) w =
  (result (powerSwitch a w),
   withServer (released (srv (final (powerSwitch a w)))) (final (powerSwitch a w)),
   events (powerSwitch a w) ++ [ERelease]).
Proof.
  intros Hl. destruct (powerSwitch_frame a w) as [Hf _]. rewrite Hl in Hf.
  unfold defer, result, final, events in *.
  destruct (powerSwitch a w) as [[r w1] t1]; cbn [fst snd] in *.
  unfold powerLock_Release, bind, getServer, putServer, emit.
  rewrite Hf. reflexivity.
Qed.

(** ** The lock step *)

(** A gated call does nothing at all. *)
Lemma HandlePowerAction_gated (a : PowerAction) (ws : list Z) (w : World X) :
  passesGate (srv w) = false ->
  HandlePowerAction a ws w =
  (Ret (Some (if installing (srv w) then ErrServerIsInstalling
              else if transferring (srv w) then ErrServerIsTransferring
              else ErrServerIsRestoring)), w, []).
Proof.
  destruct w as [s x sp]; destruct s as [id l [|] [|] [|] c p cc ed wc];
    run; intros; try discriminate; reflexivity.
Qed.

Lemma TryAcquire_free :
  semaphore.TryAcquire 1 (semaphore.mkWeighted 1 0) = (true, semaphore.mkWeighted 1 1).
Proof. reflexivity. Qed.

Lemma TryAcquire_busy :
  semaphore.TryAcquire 1 (semaphore.mkWeighted 1 1) = (false, semaphore.mkWeighted 1 1).
Proof. reflexivity. Qed.

(** A non-terminate action that gets the lock runs the switch under it and
    lets go. *)
Lemma HandlePowerAction_locked (a : PowerAction) (ws : list Z) (w : World X) :
  binaryLock (srv w) ->
  passesGate (srv w) = true ->
  String.eqb a PowerActionTerminate = false ->
  obtainsLock ws w = true ->
  HandlePowerAction a ws w =
  let r := powerSwitch a (withServer (acquired (srv w)) w) in
  (result r, withServer (released (srv (final r))) (final r),
   lockPrelude ws (srv w) ++ events r ++ [ERelease]).
Proof.
  intros Hb Hg Ha Ho.
  unfold HandlePowerAction, obtainsLock, lockPrelude in *.
  fold (waits ws) in *. rewrite Ha.
  destruct w as [s x sp]; destruct s as [id l [|] [|] [|] c p cc ed wc];
    try discriminate Hg.
  destruct l as [[sz cu]|];
    cbv [binaryLock powerLock srv semaphore.size semaphore.cur] in Hb.
  - destruct Hb as [-> Hc].
    assert (Hcu : cu = 0 \/ cu = 1) by lia.
    destruct Hcu as [-> | ->]; destruct (waits ws) eqn:Hw;
      cbn in Ho; try discriminate Ho; run_lock;
      rewrite ?TryAcquire_free, ?TryAcquire_busy; run_lock;
      rewrite ?Ho; run_lock;
      rewrite defer_Release_powerSwitch by reflexivity; reflexivity.
  - destruct (waits ws) eqn:Hw; run_lock;
      rewrite ?TryAcquire_free; run_lock;
      rewrite defer_Release_powerSwitch by reflexivity; reflexivity.
Qed.

End PowerProofs.

(** ** The probe *)

Section Probe.

Context {X : Type} `{Collaborators X}.

(** C9.  [ExecutingPowerAction] makes one non-blocking attempt on the lock
    and lets go at once when it got it; it answers [false] exactly when the
    attempt succeeded and [true] exactly when it failed, which is when the
    lock is held; without a lock (a fresh server) it answers [false] and
    attempts nothing; and it leaves the server, so the status of the lock,
    as it found it. *)
Theorem ExecutingPowerAction_probe (w : World X) :
  binaryLock (srv w) ->
  let r := ExecutingPowerAction w in
  match powerLock (srv w) with
  | None => result r = Ret false /\ events r = []
  | Some l =>
      let ok := fst (semaphore.TryAcquire 1 l) in
      ok = negb (semaphore.held l)
      /\ result r = Ret (negb ok)
      /\ events r = ETryAcquire ok :: (if ok then [ERelease] else [])
  end
  /\ final r = w
  /\ lockHeld (srv (final r)) = lockHeld (srv w).
Proof.
  intros Hb r.
  assert (Hw : final r = w /\
               match powerLock (srv w) with
               | None => result r = Ret false /\ events r = []
               | Some l =>
                   let ok := fst (semaphore.TryAcquire 1 l) in
                   ok = negb (semaphore.held l)
                   /\ result r = Ret (negb ok)
                   /\ events r = ETryAcquire ok :: (if ok then [ERelease] else [])
               end).
  { subst r. destruct w as [s x sp]. destruct s as [id l i t rs c p cc ed wc].
    destruct l as [l|]; [|split; [|split]; reflexivity].
    cbv [binaryLock srv powerLock] in Hb. destruct Hb as [_ [Hc _]].
    cbv zeta. split; [|split; [apply TryAcquire_held|]].
    - cbv [ExecutingPowerAction powerLock_TryAcquire powerLock_Release bind ret
           getServer putServer emit final fst snd srv powerLock ext spawned
           setPowerLock ID installing transferring restoring cfg fsPath
           ctxCancelled eventsDestroyed websocketsCancelled].
      destruct (semaphore.TryAcquire 1 l) as [[|] l'] eqn:E; [|reflexivity].
      rewrite (TryAcquire_Release l l' Hc E). reflexivity.
    - cbv [ExecutingPowerAction powerLock_TryAcquire powerLock_Release bind ret
           getServer putServer emit result events fst snd srv powerLock ext
           spawned setPowerLock ID installing transferring restoring cfg fsPath
           ctxCancelled eventsDestroyed websocketsCancelled].
      destruct (semaphore.TryAcquire 1 l) as [[|] l'] eqn:E;
        [|split; reflexivity].
      rewrite (TryAcquire_Release l l' Hc E). split; reflexivity. }
  destruct Hw as [Hf Hr]. split; [exact Hr|]. split; [exact Hf|].
  rewrite Hf. reflexivity.
Qed.

End Probe.

Lemma ExecutingPowerAction_probe_witness :
  binaryLock (busyServer 0)
  /\ result (ExecutingPowerAction (world (busyServer 0) quiet)) = Ret true
  /\ events (ExecutingPowerAction (world (busyServer 0) quiet)) = [ETryAcquire false].
Proof.
  assert (Hb : binaryLock (busyServer 0)) by (cbn; lia).
  split; [exact Hb|].
  pose proof (ExecutingPowerAction_probe (world (busyServer 0) quiet) Hb) as P.
  cbv zeta in P. destruct P as [[_ [Hr He]] _]. split; [exact Hr | exact He].
Defined.

(** ** Terminate *)

Section Terminate.

Context {X : Type} `{Collaborators X}.

Lemma powerSwitch_Terminate :
  powerSwitch PowerActionTerminate = Environment_Terminate (X := X) os_Kill.
Proof. reflexivity. Qed.

(** C1, as the code has it.  Dispatching Terminate never fails with an error
    that wraps a deadline-exceeded condition.  On a server that passes the
    entry gate it makes one non-blocking attempt on the lock, calls the
    backend's [Terminate(os.Kill)] whether or not it got the lock, returns
    that call's result as it is, and lets go of the lock when it had got it:
    the lock is held afterwards exactly when it was held before. *)
Theorem HandlePowerAction_Terminate (ws : list Z) (w : World X) :
  binaryLock (srv w) ->
  let r := HandlePowerAction PowerActionTerminate ws w in
  (forall e, result r = Ret (Some e) -> IsDeadlineExceeded e = false)
  /\ (passesGate (srv w) = true ->
      let ok := negb (lockHeld (srv w)) in
      let t := EnvTerminate os_Kill (ext w) in
      result r = Ret (foreign (snd t))
      /\ events r =
           match powerLock (srv w) with
           | None => [ENewLock]
           | Some _ => []
           end ++ [ETryAcquire ok; ETerminate os_Kill (snd t)]
               ++ (if ok then [ERelease] else [])
      /\ lockHeld (srv (final r)) = lockHeld (srv w)
      /\ ext (final r) = fst t).
Proof.
  intros Hb r.
  assert (Hg : passesGate (srv w) = true ->
      let ok := negb (lockHeld (srv w)) in
      let t := EnvTerminate os_Kill (ext w) in
      result r = Ret (foreign (snd t))
      /\ events r =
           match powerLock (srv w) with
           | None => [ENewLock]
           | Some _ => []
           end ++ [ETryAcquire ok; ETerminate os_Kill (snd t)]
               ++ (if ok then [ERelease] else [])
      /\ lockHeld (srv (final r)) = lockHeld (srv w)
      /\ ext (final r) = fst t).
  { intros Hg. subst r. unfold HandlePowerAction.
    change (String.eqb PowerActionTerminate PowerActionTerminate) with true.
    rewrite powerSwitch_Terminate.
    destruct w as [s x sp]; destruct s as [id l [|] [|] [|] c p cc ed wc];
      try discriminate Hg.
    destruct l as [[sz cu]|];
      cbv [binaryLock powerLock srv semaphore.size semaphore.cur] in Hb.
    - destruct Hb as [-> Hc].
      assert (Hcu : cu = 0 \/ cu = 1) by lia.
      destruct Hcu as [-> | ->]; run_lock;
        rewrite ?TryAcquire_free, ?TryAcquire_busy; run;
        destruct (EnvTerminate os_Kill x) as [x' [msg|]];
        repeat split; reflexivity.
    - run_lock; rewrite ?TryAcquire_free; run;
        destruct (EnvTerminate os_Kill x) as [x' [msg|]];
        repeat split; reflexivity. }
  split; [|exact Hg].
  intros e He. destruct (passesGate (srv w)) eqn:G.
  - destruct (Hg eq_refl) as [Hr _]. rewrite Hr in He.
    destruct (snd (EnvTerminate os_Kill (ext w))); [|discriminate He].
    injection He as <-. reflexivity.
  - subst r. rewrite (HandlePowerAction_gated _ _ _ G) in He.
    injection He as <-.
    destruct (installing (srv w)), (transferring (srv w)); reflexivity.
Qed.

End Terminate.

Lemma HandlePowerAction_Terminate_witness :
  binaryLock (busyServer 0)
  /\ passesGate (busyServer 0) = true
  /\ result (HandlePowerAction PowerActionTerminate [30] (world (busyServer 0) quiet))
     = Ret None
  /\ events (HandlePowerAction PowerActionTerminate [30] (world (busyServer 0) quiet))
     = [ETryAcquire false; ETerminate os_Kill None]
  /\ lockHeld
       (srv (final (HandlePowerAction PowerActionTerminate [30]
                      (world (busyServer 0) quiet)))) = true.
Proof.
  assert (Hb : binaryLock (busyServer 0)) by (cbn; lia).
  split; [exact Hb|]. split; [reflexivity|].
  destruct (HandlePowerAction_Terminate [30] (world (busyServer 0) quiet) Hb)
    as [_ P].
  destruct (P eq_refl) as [Hr [He [Hl _]]].
  split; [exact Hr|]. split; [exact He | exact Hl].
Defined.

(** C1 as the spec words it, "for every resource", fails on a server that
    is installing: the call makes no attempt on the lock, does not reach
    the backend and returns the gate's error, not the backend's result. *)
Lemma HandlePowerAction_Terminate_gated :
  result (HandlePowerAction PowerActionTerminate [] (world installingServer quiet))
  = Ret (Some ErrServerIsInstalling)
  /\ events (HandlePowerAction PowerActionTerminate [] (world installingServer quiet))
     = []
  /\ result (HandlePowerAction PowerActionTerminate [] (world installingServer quiet))
     <> Ret (foreign (snd (EnvTerminate os_Kill quiet))).
Proof.
  split; [reflexivity|]. split; [reflexivity|]. vm_compute. discriminate.
Qed.

(** ** A held lock and no wait bound *)

Section NoWait.

Context {X : Type} `{Collaborators X}.

Lemma held_TryAcquire (l : semaphore.Weighted) :
  semaphore.held l = true -> semaphore.TryAcquire 1 l = (false, l).
Proof.
  unfold semaphore.held, semaphore.TryAcquire. intros Hh.
  destruct (1 <=? semaphore.size l - semaphore.cur l) eqn:E; [lia | reflexivity].
Qed.

(** C6, as the code has it.  On a server that passes the entry gate, a
    non-terminate action dispatched with no wait bound, or with a bound of
    zero, while the lock is held makes one non-blocking attempt on the lock,
    waits for nothing, changes nothing and returns the lock error, which
    wraps the deadline-exceeded condition. *)
Theorem HandlePowerAction_busy_no_wait
  (a : PowerAction) (ws : list Z) (w : World X) :
  passesGate (srv w) = true ->
  a <> PowerActionTerminate ->
  ws = [] \/ hd 0 ws = 0 ->
  lockHeld (srv w) = true ->
  HandlePowerAction a ws w = (Ret (Some LockTimeout), w, [ETryAcquire false])
  /\ noneOf isBlockingWait (events (HandlePowerAction a ws w)) = true
  /\ IsDeadlineExceeded LockTimeout = true.
Proof.
  intros Hg Ha Hws Hl.
  assert (Hw : waits ws = false).
  { unfold waits. destruct Hws as [-> | ->]; [reflexivity|].
    rewrite Z.eqb_refl. apply andb_false_r. }
  apply String.eqb_neq in Ha.
  assert (E : HandlePowerAction a ws w
              = (Ret (Some LockTimeout), w, [ETryAcquire false])).
  { unfold HandlePowerAction. fold (waits ws). rewrite Ha, Hw.
    destruct w as [s x sp]; destruct s as [id l [|] [|] [|] c p cc ed wc];
      try discriminate Hg.
    destruct l as [l|]; [|discriminate Hl].
    cbv [lockHeld srv powerLock] in Hl.
    run_lock. rewrite (held_TryAcquire l Hl). reflexivity. }
  rewrite E. repeat split; reflexivity.
Qed.

End NoWait.

Lemma HandlePowerAction_busy_no_wait_witness :
  passesGate (busyServer 0) = true
  /\ PowerActionStart <> PowerActionTerminate
  /\ ([0] = [] \/ hd 0 [0] = 0)
  /\ lockHeld (busyServer 0) = true
  /\ HandlePowerAction PowerActionStart [0] (world (busyServer 0) quiet)
     = (Ret (Some LockTimeout), world (busyServer 0) quiet, [ETryAcquire false]).
Proof.
  assert (Ha : PowerActionStart <> PowerActionTerminate) by discriminate.
  assert (Hws : [0] = [] \/ hd 0 [0] = 0) by (right; reflexivity).
  split; [reflexivity|]. split; [exact Ha|]. split; [exact Hws|].
  split; [reflexivity|].
  exact (proj1 (HandlePowerAction_busy_no_wait PowerActionStart [0]
                  (world (busyServer 0) quiet) eq_refl Ha Hws eq_refl)).
Defined.

(** C6 as the spec words it fails on a server that is installing while a
    power action holds the lock: the call returns the gate's error and
    makes no attempt on the lock. *)
Lemma HandlePowerAction_busy_no_wait_gated :
  lockHeld installingServer = true
  /\ HandlePowerAction PowerActionStart [] (world installingServer quiet)
     = (Ret (Some ErrServerIsInstalling), world installingServer quiet, [])
  /\ Some ErrServerIsInstalling <> Some LockTimeout.
Proof.
  split; [reflexivity|]. split; [reflexivity|]. discriminate.
Qed.

(** ** The switch of the start family *)

Section StartFamily.

Context {X : Type} `{Collaborators X}.

(** A non-terminate action that does not get the lock stops there. *)
Lemma HandlePowerAction_refused (a : PowerAction) (ws : list Z) (w : World X) :
  passesGate (srv w) = true ->
  String.eqb a PowerActionTerminate = false ->
  obtainsLock ws w = false ->
  HandlePowerAction a ws w =
  (Ret (Some LockTimeout), w,
   [if waits ws then EAcquire (hd 0 ws) false else ETryAcquire false]).
Proof.
  intros Hg Ha Ho. unfold HandlePowerAction, obtainsLock in *.
  fold (waits ws) in *. rewrite Ha.
  apply orb_false_elim in Ho. destruct Ho as [Hl Ho].
  apply negb_false_iff in Hl.
  destruct w as [s x sp]; destruct s as [id l [|] [|] [|] c p cc ed wc];
    try discriminate Hg.
  destruct l as [l|]; [|discriminate Hl].
  cbv [lockHeld srv powerLock ext] in Hl, Ho.
  destruct (waits ws); cbn [andb] in Ho; run_lock;
    rewrite (held_TryAcquire l Hl); run_lock; rewrite ?Ho; reflexivity.
Qed.

(** [Start] on a backend that is not offline. *)
Lemma powerSwitch_Start_running (w : World X) :
  EnvState (ext w) <> ProcessOfflineState ->
  powerSwitch PowerActionStart w =
  (Ret (Some ErrIsRunning), w, [EState (EnvState (ext w))]).
Proof.
  intros Hs. destruct w as [s x sp]. cbn [ext] in Hs.
  change (powerSwitch PowerActionStart) with
    (st <- Environment_State (X := X) ;;
     if negb (ProcessState_eqb st ProcessOfflineState) then ret (Some ErrIsRunning)
     else
       err <- onBeforeStart ;;
       match err with
       | Some e => ret (Some e)
       | None => Environment_Start
       end).
  cbv [bind Environment_State getExt emit ret ext fst snd]. cbn [app].
  destruct (EnvState x); [contradiction Hs; reflexivity | reflexivity ..].
Qed.

Lemma startPhase_run (w : World X) :
  startPhase w =
  let p := onBeforeStart w in
  match result p with
  | Ret None =>
      let st := EnvStart (ext (final p)) in
      (Ret (foreign (snd st)), mkWorld (srv (final p)) (fst st) (spawned (final p)),
       events p ++ [EStart (snd st)])
  | Ret (Some e) => (Ret (Some e), final p, events p)
  | Panic msg => (Panic msg, final p, events p)
  end.
Proof.
  unfold startPhase, bind, result, final, events.
  destruct (onBeforeStart w) as [[[[e|]|msg] w1] t1]; cbn [fst snd].
  - cbv [ret]. rewrite app_nil_r. reflexivity.
  - destruct w1 as [s1 x1 sp1].
    cbv [Environment_Start bind getExt putExt emit ret ext srv spawned fst snd].
    destruct (EnvStart x1) as [x' r]. reflexivity.
  - reflexivity.
Qed.

Lemma powerSwitch_Start_offline (w : World X) :
  EnvState (ext w) = ProcessOfflineState ->
  powerSwitch PowerActionStart w =
  (result (startPhase w), final (startPhase w),
   EState ProcessOfflineState :: events (startPhase w)).
Proof.
  intros Hs.
  change (powerSwitch PowerActionStart) with
    (st <- Environment_State (X := X) ;;
     if negb (ProcessState_eqb st ProcessOfflineState) then ret (Some ErrIsRunning)
     else startPhase).
  cbv [bind Environment_State getExt emit ret fst snd result final events].
  rewrite Hs. cbn [ProcessState_eqb negb app].
  destruct (startPhase w) as [[r w1] t1]. reflexivity.
Qed.

Lemma powerSwitch_Restart (w : World X) :
  powerSwitch PowerActionRestart w =
  let stop := EnvWaitForStop 600 true (ext w) in
  let w1 := mkWorld (srv w) (fst stop) (spawned w) in
  match snd stop with
  | Some msg => (Ret (Some (Foreign msg)), w1, [EWaitForStop 600 true (Some msg)])
  | None =>
      (result (startPhase w1), final (startPhase w1),
       EWaitForStop 600 true None :: events (startPhase w1))
  end.
Proof.
  change (powerSwitch PowerActionRestart) with
    (err <- Environment_WaitForStop (X := X) 600 true ;;
     match err with
     | Some e => ret (Some e)
     | None => startPhase
     end).
  cbv [bind Environment_WaitForStop getExt putExt emit ret fst snd result final
       events srv ext spawned foreign].
  destruct (EnvWaitForStop 600 true (let (_, ext, _) := w in ext)) as [x' [msg|]];
    cbn [app fst snd]; [reflexivity|].
  match goal with |- context [startPhase ?w1] => destruct (startPhase w1) as [[r w2] t2] end.
  reflexivity.
Qed.

Lemma noneOf_app (p : Event -> bool) (l1 l2 : list Event) :
  noneOf p (l1 ++ l2) = noneOf p l1 && noneOf p l2.
Proof. apply forallb_app. Qed.

Lemma lockPrelude_lock_only (ws : list Z) (s : Server) :
  forallb isLockEvent (lockPrelude ws s) = true.
Proof.
  unfold lockPrelude. destruct (powerLock s), (waits ws); reflexivity.
Qed.

Lemma noneOf_lockPrelude (p : Event -> bool) (ws : list Z) (s : Server) :
  (forall e, isLockEvent e = true -> p e = false) ->
  noneOf p (lockPrelude ws s) = true.
Proof.
  intros Hp. unfold noneOf. apply forallb_forall. intros e He.
  pose proof (lockPrelude_lock_only ws s) as Hl.
  rewrite forallb_forall in Hl. rewrite (Hp e (Hl e He)). reflexivity.
Qed.

Lemma lock_not_pipeline (e : Event) : isLockEvent e = true -> isPipelineEvent e = false.
Proof. destruct e; try discriminate; reflexivity. Qed.

Lemma lock_not_Start (e : Event) : isLockEvent e = true -> isStartEvent e = false.
Proof. destruct e; try discriminate; reflexivity. Qed.

(** The pipeline never starts the backend, and never panics. *)
Lemma onBeforeStart_no_Start (w : World X) :
  noneOf isStartEvent (events (onBeforeStart w)) = true.
Proof.
  open_world w; run; repeat (split_call; run); reflexivity.
Qed.

Lemma onBeforeStart_returns (w : World X) :
  exists v, result (onBeforeStart w) = Ret v.
Proof. apply onBeforeStart_frame. Qed.

End StartFamily.

(** ** The lock stays a binary lock *)

Section Invariant.

Context {X : Type} `{Collaborators X}.

Lemma released_binaryLock (s : Server) : binaryLock (released s).
Proof. cbv [binaryLock released setPowerLock powerLock semaphore.size semaphore.cur]. lia. Qed.

(** Whatever the action and its outcome, [HandlePowerAction] leaves a lock
    of one unit with none or one of it held. *)
Lemma HandlePowerAction_binaryLock (a : PowerAction) (ws : list Z) (w : World X) :
  binaryLock (srv w) ->
  binaryLock (srv (final (HandlePowerAction a ws w))).
Proof.
  intros Hb. destruct (passesGate (srv w)) eqn:Hg.
  - destruct (String.eqb a PowerActionTerminate) eqn:Ha.
    + apply String.eqb_eq in Ha. subst a. unfold HandlePowerAction.
      change (String.eqb PowerActionTerminate PowerActionTerminate) with true.
      rewrite powerSwitch_Terminate.
      destruct w as [s x sp]; destruct s as [id l [|] [|] [|] c p cc ed wc];
        try discriminate Hg.
      destruct l as [[sz cu]|];
        cbv [binaryLock powerLock srv semaphore.size semaphore.cur] in Hb.
      * destruct Hb as [-> Hc].
        assert (Hcu : cu = 0 \/ cu = 1) by lia.
        destruct Hcu as [-> | ->]; run_lock;
          rewrite ?TryAcquire_free, ?TryAcquire_busy; run;
          destruct (EnvTerminate os_Kill x) as [x' [msg|]]; cbn; lia.
      * run_lock; rewrite ?TryAcquire_free; run;
          destruct (EnvTerminate os_Kill x) as [x' [msg|]]; cbn; lia.
    + destruct (obtainsLock ws w) eqn:Ho.
      * rewrite (HandlePowerAction_locked _ _ _ Hb Hg Ha Ho). cbv zeta.
        apply released_binaryLock.
      * rewrite (HandlePowerAction_refused _ _ _ Hg Ha Ho). exact Hb.
  - rewrite (HandlePowerAction_gated _ _ _ Hg). exact Hb.
Qed.

End Invariant.

(** ** Start on a backend that is not offline *)

Section AlreadyRunning.

Context {X : Type} `{Collaborators X}.

(** C7, as the code has it.  When the backend is not offline,
    [Dispatch(Start)] fails, runs no step of the pipeline and does not call
    the backend's [Start()].  When the server passes the entry gate and the
    lock step gets the lock, the error is [ErrIsRunning] and the call only
    read the backend's state between taking the lock and letting go; when
    it passes the gate and the lock step does not get the lock, the error
    is the lock error and the failed lock call is all that happened; when
    the gate stops it, the error is the gate's, the one of the first flag
    set among installing, transferring and restoring, and nothing
    happened. *)
Theorem HandlePowerAction_Start_running (ws : list Z) (w : World X) :
  binaryLock (srv w) ->
  EnvState (ext w) <> ProcessOfflineState ->
  let r := HandlePowerAction PowerActionStart ws w in
  noneOf isPipelineEvent (events r) = true
  /\ noneOf isStartEvent (events r) = true
  /\ (exists e, result r = Ret (Some e))
  /\ (passesGate (srv w) = true ->
      obtainsLock ws w = true ->
      result r = Ret (Some ErrIsRunning)
      /\ events r =
           lockPrelude ws (srv w) ++ [EState (EnvState (ext w)); ERelease])
  /\ (passesGate (srv w) = true ->
      obtainsLock ws w = false ->
      result r = Ret (Some LockTimeout)
      /\ final r = w
      /\ events r =
           [if waits ws then EAcquire (hd 0 ws) false else ETryAcquire false])
  /\ (passesGate (srv w) = false ->
      result r =
        Ret (Some (if installing (srv w) then ErrServerIsInstalling
                   else if transferring (srv w) then ErrServerIsTransferring
                   else ErrServerIsRestoring))
      /\ final r = w
      /\ events r = []).
Proof.
  intros Hb Hs r. subst r.
  assert (Ha : String.eqb PowerActionStart PowerActionTerminate = false)
    by reflexivity.
  destruct (passesGate (srv w)) eqn:Hg.
  - destruct (obtainsLock ws w) eqn:Ho.
    + rewrite (HandlePowerAction_locked _ _ _ Hb Hg Ha Ho). cbv zeta.
      rewrite powerSwitch_Start_running by exact Hs.
      cbn [result final events fst snd ext withServer app].
      rewrite !noneOf_app.
      rewrite (noneOf_lockPrelude _ _ _ lock_not_pipeline).
      rewrite (noneOf_lockPrelude _ _ _ lock_not_Start).
      split; [reflexivity|]. split; [reflexivity|].
      split; [eexists; reflexivity|].
      split; [intros _ _; split; reflexivity|].
      split; intros; discriminate.
    + rewrite (HandlePowerAction_refused _ _ _ Hg Ha Ho).
      cbn [result final events fst snd].
      split; [destruct (waits ws); reflexivity|].
      split; [destruct (waits ws); reflexivity|].
      split; [eexists; reflexivity|].
      split; [intros; discriminate|].
      split; [intros _ _; repeat split | intros; discriminate].
  - rewrite (HandlePowerAction_gated _ _ _ Hg).
    cbn [result final events fst snd].
    split; [reflexivity|]. split; [reflexivity|].
    split; [eexists; reflexivity|].
    split; [intros; discriminate|].
    split; [intros; discriminate | intros _; repeat split].
Qed.

End AlreadyRunning.

Lemma HandlePowerAction_Start_running_witness :
  binaryLock (idleServer 0)
  /\ EnvState (ext (world (idleServer 0) running)) <> ProcessOfflineState
  /\ passesGate (idleServer 0) = true
  /\ obtainsLock [] (world (idleServer 0) running) = true
  /\ result (HandlePowerAction PowerActionStart [] (world (idleServer 0) running))
     = Ret (Some ErrIsRunning)
  /\ events (HandlePowerAction PowerActionStart [] (world (idleServer 0) running))
     = [ETryAcquire true; EState ProcessRunningState; ERelease].
Proof.
  assert (Hb : binaryLock (idleServer 0)) by (cbn; lia).
  assert (Hs : EnvState (ext (world (idleServer 0) running)) <> ProcessOfflineState)
    by discriminate.
  split; [exact Hb|]. split; [exact Hs|]. split; [reflexivity|].
  split; [reflexivity|].
  destruct (HandlePowerAction_Start_running [] (world (idleServer 0) running) Hb Hs)
    as [_ [_ [_ [P _]]]].
  exact (P eq_refl eq_refl).
Defined.

(** C7 as the spec words it fails while another action holds the lock: the
    backend is running, and [Dispatch(Start)] fails with the lock error,
    not with [ErrIsRunning]. *)
Lemma HandlePowerAction_Start_running_busy :
  EnvState (ext (world (busyServer 0) running)) <> ProcessOfflineState
  /\ result (HandlePowerAction PowerActionStart [] (world (busyServer 0) running))
     = Ret (Some LockTimeout)
  /\ Some LockTimeout <> Some ErrIsRunning.
Proof.
  split; [discriminate|]. split; [reflexivity | discriminate].
Qed.

(** ** Restart *)

Section Restart.

Context {X : Type} `{Collaborators X}.

(** C5, as the code has it.  On a server that passes the entry gate and
    whose lock step gets the lock, [Dispatch(Restart)] first makes the
    stop-wait of [Stop], [WaitForStop(600, true)].  When that fails, it
    returns the error as it is and runs neither the pipeline nor [Start()].
    When it succeeds, it runs the pipeline and, when the pipeline has no
    objection, [Start()], which is what the switch does for [Start] on an
    offline backend after it read the state. *)
Theorem HandlePowerAction_Restart (ws : list Z) (w : World X) :
  binaryLock (srv w) ->
  passesGate (srv w) = true ->
  obtainsLock ws w = true ->
  let r := HandlePowerAction PowerActionRestart ws w in
  let stop := EnvWaitForStop 600 true (ext w) in
  let w1 := mkWorld (acquired (srv w)) (fst stop) (spawned w) in
  match snd stop with
  | Some msg =>
      result r = Ret (Some (Foreign msg))
      /\ events r =
           lockPrelude ws (srv w) ++ [EWaitForStop 600 true (Some msg); ERelease]
      /\ noneOf isPipelineEvent (events r) = true
      /\ noneOf isStartEvent (events r) = true
  | None =>
      let p := onBeforeStart w1 in
      match result p with
      | Ret None =>
          let st := EnvStart (ext (final p)) in
          result r = Ret (foreign (snd st))
          /\ events r =
               lockPrelude ws (srv w)
               ++ EWaitForStop 600 true None :: events p
               ++ [EStart (snd st); ERelease]
      | Ret (Some e) =>
          result r = Ret (Some e)
          /\ events r =
               lockPrelude ws (srv w)
               ++ EWaitForStop 600 true None :: events p ++ [ERelease]
          /\ noneOf isStartEvent (events r) = true
      | Panic _ => False
      end
      /\ (EnvState (fst stop) = ProcessOfflineState ->
          let sw := powerSwitch PowerActionStart w1 in
          result r = result sw
          /\ events r =
               lockPrelude ws (srv w)
               ++ EWaitForStop 600 true None :: tl (events sw) ++ [ERelease])
  end.
Proof.
  intros Hb Hg Ho r stop w1.
  assert (Ha : String.eqb PowerActionRestart PowerActionTerminate = false)
    by reflexivity.
  subst r. rewrite (HandlePowerAction_locked _ _ _ Hb Hg Ha Ho). cbv zeta.
  rewrite powerSwitch_Restart. cbv zeta.
  change (ext (withServer (acquired (srv w)) w)) with (ext w).
  change (spawned (withServer (acquired (srv w)) w)) with (spawned w).
  change (srv (withServer (acquired (srv w)) w)) with (acquired (srv w)).
  fold stop. fold w1.
  destruct (snd stop) as [msg|].
  - cbn [result events fst snd app]. rewrite !noneOf_app.
    rewrite (noneOf_lockPrelude _ _ _ lock_not_pipeline).
    rewrite (noneOf_lockPrelude _ _ _ lock_not_Start).
    repeat split; reflexivity.
  - cbn [result events fst snd]. split.
    + rewrite startPhase_run. cbv zeta.
      pose proof (onBeforeStart_no_Start w1) as Hn.
      destruct (onBeforeStart_returns w1) as [v Hv]. rewrite Hv.
      destruct v as [e|]; cbn [fst snd].
      * split; [reflexivity|]. split; [reflexivity|].
        rewrite noneOf_app, (noneOf_lockPrelude _ _ _ lock_not_Start).
        cbn [andb]. unfold noneOf, events in *.
        cbn [fst snd app forallb isStartEvent negb andb].
        rewrite forallb_app, Hn. reflexivity.
      * split; [reflexivity|]. unfold events. cbn [fst snd app].
        rewrite <- app_assoc. reflexivity.
    + intros Hs. cbv zeta.
      rewrite (powerSwitch_Start_offline w1) by exact Hs.
      cbn [result events fst snd tl]. split; reflexivity.
Qed.

End Restart.

Lemma HandlePowerAction_Restart_witness :
  binaryLock (idleServer 0)
  /\ passesGate (idleServer 0) = true
  /\ obtainsLock [30] (world (idleServer 0) stuck) = true
  /\ result (HandlePowerAction PowerActionRestart [30] (world (idleServer 0) stuck))
     = Ret (Some (Foreign "context deadline exceeded"))
  /\ events (HandlePowerAction PowerActionRestart [30] (world (idleServer 0) stuck))
     = [EAcquire 30 true;
        EWaitForStop 600 true (Some "context deadline exceeded"); ERelease].
Proof.
  assert (Hb : binaryLock (idleServer 0)) by (cbn; lia).
  split; [exact Hb|]. split; [reflexivity|]. split; [reflexivity|].
  destruct (HandlePowerAction_Restart [30] (world (idleServer 0) stuck)
              Hb eq_refl eq_refl) as [Hr [He _]].
  split; [exact Hr | exact He].
Defined.

(** C5 as the spec words it, "for every resource ... first performs the
    stop-wait", fails on a server that is installing: [Dispatch(Restart)]
    returns the gate's error and never calls [WaitForStop]. *)
Lemma HandlePowerAction_Restart_gated :
  result (HandlePowerAction PowerActionRestart [30] (world installingServer stuck))
  = Ret (Some ErrServerIsInstalling)
  /\ events (HandlePowerAction PowerActionRestart [30] (world installingServer stuck))
     = [].
Proof.
  split; reflexivity.
Qed.

(** ** The pipeline: synchronisation, then suspension *)

Section Suspension.

Context {X : Type} `{Collaborators X}.

Lemma onBeforeStart_sync_failed (w : World X) (msg : string) :
  snd (PanelSync (cfg (srv w)) (ext w)) = Some msg ->
  onBeforeStart w =
  (Ret (Some (WithMessage (Foreign msg) syncMessage)),
   mkWorld (setCfg (snd (fst (PanelSync (cfg (srv w)) (ext w)))) (srv w))
           (fst (fst (PanelSync (cfg (srv w)) (ext w)))) (spawned w),
   [ELog syncLog; ESync (Some msg)]).
Proof.
  destruct w as [s x sp]. cbn [srv ext spawned].
  cbv [onBeforeStart Log_Info Sync bind getServer getExt putExt putServer emit
       ret srv ext spawned fst snd].
  destruct (PanelSync (cfg s) x) as [[x' c'] r]. cbn [fst snd].
  intros ->. reflexivity.
Qed.

Lemma onBeforeStart_suspended (w : World X) :
  snd (PanelSync (cfg (srv w)) (ext w)) = None ->
  Suspended (snd (fst (PanelSync (cfg (srv w)) (ext w)))) = true ->
  onBeforeStart w =
  (Ret (Some ErrSuspended),
   mkWorld (setCfg (snd (fst (PanelSync (cfg (srv w)) (ext w)))) (srv w))
           (fst (fst (PanelSync (cfg (srv w)) (ext w)))) (spawned w),
   [ELog syncLog; ESync None; EIsSuspended true]).
Proof.
  destruct w as [s x sp]. cbn [srv ext spawned].
  cbv [onBeforeStart Log_Info Sync IsSuspended bind getServer getExt putExt
       putServer emit ret srv ext spawned fst snd].
  destruct (PanelSync (cfg s) x) as [[x' c'] r]. cbn [fst snd].
  intros -> Hs. cbn [foreign app setCfg cfg]. rewrite Hs. reflexivity.
Qed.

(** The pipeline answers [ErrSuspended] in that one way. *)
Lemma onBeforeStart_Suspended_inv (w : World X) :
  result (onBeforeStart w) = Ret (Some ErrSuspended) ->
  snd (PanelSync (cfg (srv w)) (ext w)) = None
  /\ Suspended (snd (fst (PanelSync (cfg (srv w)) (ext w)))) = true
  /\ events (onBeforeStart w) = [ELog syncLog; ESync None; EIsSuspended true].
Proof.
  destruct (snd (PanelSync (cfg (srv w)) (ext w))) as [msg|] eqn:E.
  - rewrite (onBeforeStart_sync_failed w msg E). discriminate.
  - destruct (Suspended (snd (fst (PanelSync (cfg (srv w)) (ext w))))) eqn:S.
    + rewrite (onBeforeStart_suspended w E S). intros _. repeat split.
    + revert E S. open_world w; run; repeat (split_call; run);
        cbn [fst snd]; intros; congruence.
Qed.

Lemma onBeforeStart_syncedFirst (w : World X) :
  syncedFirst false (events (onBeforeStart w)) = true.
Proof.
  open_world w; run; repeat (split_call; run); reflexivity.
Qed.

Lemma IsStart_cases (a : PowerAction) :
  IsStart a = true -> a = PowerActionStart \/ a = PowerActionRestart.
Proof.
  unfold IsStart. intros Ha. apply orb_true_iff in Ha.
  destruct Ha as [Ha | Ha]; apply String.eqb_eq in Ha; auto.
Qed.

(** The switch of a start-family action answers [ErrSuspended] only out of
    the pipeline. *)
Lemma powerSwitch_Suspended_inv (a : PowerAction) (w : World X) :
  IsStart a = true ->
  result (powerSwitch a w) = Ret (Some ErrSuspended) ->
  exists pre,
    events (powerSwitch a w) = pre ++ [ESync None; EIsSuspended true].
Proof.
  intros Ha Hr. destruct (IsStart_cases a Ha) as [-> | ->].
  - destruct (ProcessState_eqb (EnvState (ext w)) ProcessOfflineState) eqn:S.
    + assert (Hs : EnvState (ext w) = ProcessOfflineState)
        by (destruct (EnvState (ext w)); try discriminate S; reflexivity).
      rewrite (powerSwitch_Start_offline w Hs) in *.
      rewrite startPhase_run in *. cbv zeta in *.
      destruct (result (onBeforeStart w)) as [[e|]|m] eqn:P;
        cbn [result events fst snd] in *.
      * injection Hr as ->.
        destruct (onBeforeStart_Suspended_inv w P) as [_ [_ He]].
        rewrite He. exists [EState ProcessOfflineState; ELog syncLog]. reflexivity.
      * destruct (snd (EnvStart (ext (final (onBeforeStart w))))); discriminate Hr.
      * discriminate Hr.
    + assert (Hs : EnvState (ext w) <> ProcessOfflineState)
        by (intros E; rewrite E in S; discriminate S).
      rewrite (powerSwitch_Start_running w Hs) in Hr. discriminate Hr.
  - rewrite powerSwitch_Restart in *. cbv zeta in *.
    destruct (snd (EnvWaitForStop 600 true (ext w))) as [msg|];
      [discriminate Hr|].
    rewrite startPhase_run in *. cbv zeta in *.
    match type of Hr with
    | context [onBeforeStart ?w1] =>
        destruct (result (onBeforeStart w1)) as [[e|]|m] eqn:P;
        cbn [result events fst snd] in *;
        [ injection Hr as ->;
          destruct (onBeforeStart_Suspended_inv w1 P) as [_ [_ He]];
          rewrite He; exists [EWaitForStop 600 true None; ELog syncLog];
          reflexivity
        | destruct (snd (EnvStart (ext (final (onBeforeStart w1)))));
          discriminate Hr
        | discriminate Hr ]
    end.
Qed.

(** C4.  The pipeline answers [ErrSuspended] only after a [Sync()] that
    succeeded: when [Sync()] fails the pipeline returns the wrapped sync
    error whatever the suspended flag, before and after, says; it answers
    [ErrSuspended] exactly when [Sync()] succeeded and the configuration it
    left is suspended; it never reads the flag before a synchronisation that
    succeeded; and a start-family dispatch that returns [ErrSuspended] has
    the successful [Sync()] just before the look at the flag. *)
Theorem onBeforeStart_suspension_after_sync (w : World X) :
  let p := onBeforeStart w in
  let sync := PanelSync (cfg (srv w)) (ext w) in
  (forall msg,
     snd sync = Some msg ->
     result p = Ret (Some (WithMessage (Foreign msg) syncMessage))
     /\ events p = [ELog syncLog; ESync (Some msg)])
  /\ (result p = Ret (Some ErrSuspended) <->
      snd sync = None /\ Suspended (snd (fst sync)) = true)
  /\ (result p = Ret (Some ErrSuspended) ->
      events p = [ELog syncLog; ESync None; EIsSuspended true])
  /\ syncedFirst false (events p) = true
  /\ (forall a ws,
        binaryLock (srv w) ->
        IsStart a = true ->
        result (HandlePowerAction a ws w) = Ret (Some ErrSuspended) ->
        exists pre post,
          events (HandlePowerAction a ws w)
          = pre ++ [ESync None; EIsSuspended true] ++ post).
Proof.
  cbv zeta. split; [|split; [|split; [|split]]].
  - intros msg E. rewrite (onBeforeStart_sync_failed w msg E). split; reflexivity.
  - split.
    + intros Hr. destruct (onBeforeStart_Suspended_inv w Hr) as [E [S _]]. auto.
    + intros [E S]. rewrite (onBeforeStart_suspended w E S). reflexivity.
  - intros Hr. apply (onBeforeStart_Suspended_inv w Hr).
  - apply onBeforeStart_syncedFirst.
  - intros a ws Hb Ha Hr.
    assert (Hk : String.eqb a PowerActionTerminate = false)
      by (destruct (IsStart_cases a Ha) as [-> | ->]; reflexivity).
    destruct (passesGate (srv w)) eqn:Hg.
    + destruct (obtainsLock ws w) eqn:Ho.
      * rewrite (HandlePowerAction_locked _ _ _ Hb Hg Hk Ho) in *. cbv zeta in *.
        cbn [result events fst snd] in *.
        destruct (powerSwitch_Suspended_inv a _ Ha Hr) as [pre He].
        unfold events in *. rewrite He.
        exists (lockPrelude ws (srv w) ++ pre), [ERelease].
        rewrite <- !app_assoc. reflexivity.
      * rewrite (HandlePowerAction_refused _ _ _ Hg Hk Ho) in Hr.
        discriminate Hr.
    + rewrite (HandlePowerAction_gated _ _ _ Hg) in Hr.
      destruct (installing (srv w)), (transferring (srv w)); discriminate Hr.
Qed.

End Suspension.

Lemma onBeforeStart_suspension_after_sync_witness :
  result (onBeforeStart (world (idleServer 0) suspending)) = Ret (Some ErrSuspended)
  /\ events (onBeforeStart (world (idleServer 0) suspending))
     = [ELog syncLog; ESync None; EIsSuspended true]
  /\ result (onBeforeStart (world (setSuspended true (idleServer 0)) unreachable))
     = Ret (Some (WithMessage (Foreign "panel: 503") syncMessage)).
Proof.
  destruct (onBeforeStart_suspension_after_sync (world (idleServer 0) suspending))
    as [_ [Hiff [Hev _]]].
  assert (Hr : result (onBeforeStart (world (idleServer 0) suspending))
               = Ret (Some ErrSuspended))
    by (apply Hiff; split; reflexivity).
  split; [exact Hr|]. split; [exact (Hev Hr)|].
  destruct (onBeforeStart_suspension_after_sync
              (world (setSuspended true (idleServer 0)) unreachable))
    as [Hf _].
  exact (proj1 (Hf "panel: 503" eq_refl)).
Defined.

(** ** The pipeline: disk space *)

Section DiskSpaceStep.

Context {X : Type} `{Collaborators X}.

Lemma onBeforeStart_space_abort (w : World X) (msg : string) :
  In (EHasSpaceErr false (Some msg)) (events (onBeforeStart w)) ->
  result (onBeforeStart w) = Ret (Some (Foreign msg)).
Proof.
  open_world w; run; repeat (split_call; run);
    cbn [In]; intuition congruence.
Qed.

Lemma lock_not_HasSpaceErr (l : list Event) (b : bool) (r : option string) :
  forallb isLockEvent l = true -> ~ In (EHasSpaceErr b r) l.
Proof.
  intros Hl Hi. rewrite forallb_forall in Hl. specialize (Hl _ Hi). discriminate Hl.
Qed.

(** The switch of a start-family action: a space check that fails is the
    error of the switch, and [Start()] is not called. *)
Lemma powerSwitch_space_abort (a : PowerAction) (w : World X) (msg : string) :
  IsStart a = true ->
  In (EHasSpaceErr false (Some msg)) (events (powerSwitch a w)) ->
  result (powerSwitch a w) = Ret (Some (Foreign msg))
  /\ noneOf isStartEvent (events (powerSwitch a w)) = true.
Proof.
  intros Ha Hi.
  assert (Hphase : forall w1 pre,
             (forall e, In e pre -> isBackendEvent e = true /\ isStartEvent e = false) ->
             In (EHasSpaceErr false (Some msg)) (pre ++ events (startPhase w1)) ->
             result (startPhase w1) = Ret (Some (Foreign msg))
             /\ noneOf isStartEvent (pre ++ events (startPhase w1)) = true).
  { intros w1 pre Hpre Hin. apply in_app_or in Hin. destruct Hin as [Hin | Hin].
    { destruct (Hpre _ Hin) as [Hbk _]. discriminate Hbk. }
    assert (Hp : noneOf isStartEvent pre = true).
    { apply forallb_forall. intros e He. destruct (Hpre e He) as [_ ->]. reflexivity. }
    rewrite noneOf_app, Hp. cbn [andb].
    rewrite startPhase_run in *. cbv zeta in *.
    pose proof (onBeforeStart_no_Start w1) as Hn.
    destruct (result (onBeforeStart w1)) as [[e|]|m] eqn:P;
      cbn [result events fst snd] in *.
    - rewrite (onBeforeStart_space_abort w1 msg Hin) in P.
      injection P as <-. split; [reflexivity | exact Hn].
    - apply in_app_or in Hin. destruct Hin as [Hin | [Hin | []]];
        [|discriminate Hin].
      rewrite (onBeforeStart_space_abort w1 msg Hin) in P. discriminate P.
    - rewrite (onBeforeStart_space_abort w1 msg Hin) in P. discriminate P. }
  destruct (IsStart_cases a Ha) as [-> | ->].
  - destruct (ProcessState_eqb (EnvState (ext w)) ProcessOfflineState) eqn:S.
    + assert (Hs : EnvState (ext w) = ProcessOfflineState)
        by (destruct (EnvState (ext w)); try discriminate S; reflexivity).
      rewrite (powerSwitch_Start_offline w Hs) in *.
      cbn [result events fst snd] in *.
      apply (Hphase w [EState ProcessOfflineState]); [|exact Hi].
      intros e [<- | []]. split; reflexivity.
    + assert (Hs : EnvState (ext w) <> ProcessOfflineState)
        by (intros E; rewrite E in S; discriminate S).
      rewrite (powerSwitch_Start_running w Hs) in Hi.
      destruct Hi as [Hi | []]. discriminate Hi.
  - rewrite powerSwitch_Restart in *. cbv zeta in *.
    destruct (snd (EnvWaitForStop 600 true (ext w))) as [m|];
      cbn [result events fst snd] in *.
    + destruct Hi as [Hi | []]. discriminate Hi.
    + match goal with
      | |- context [startPhase ?w1] =>
          apply (Hphase w1 [EWaitForStop 600 true None]); [|exact Hi]
      end.
      intros e [<- | []]. split; reflexivity.
Qed.

(** C8.  Once the pipeline is at its disk-space step ([Sync()] succeeded
    and the server it left is not suspended): with a limit of zero or less
    it calls [HasSpaceAvailable(true)], which leaves the recalculation to a
    goroutine nobody waits for, drops the answer and goes on, so that only
    the permission step can still stop the boot; with a positive limit it
    calls [HasSpaceErr(false)] itself and, when that fails, returns that
    error at once.  A start-family dispatch whose space check failed returns
    that error and never calls the backend's [Start()]. *)
Theorem onBeforeStart_disk_space (w : World X) :
  let sync := PanelSync (cfg (srv w)) (ext w) in
  let c1 := snd (fst sync) in
  let x1 := EnvSync c1 (fst (fst sync)) in
  let p := onBeforeStart w in
  snd sync = None ->
  Suspended c1 = false ->
  (DiskSpaceLimit c1 <= 0 ->
   let avail := FsHasSpaceAvailable true x1 in
   let rest := permissionStep (FsUpdateConfigurationFiles (fst avail)) in
   result p = Ret (fst (fst rest))
   /\ events p =
        [ELog syncLog; ESync None; EIsSuspended false; ESyncWithEnvironment;
         EHasSpaceAvailable true; EGo TaskDiskUsage;
         EPublish updatingMessage; EUpdateConfigurationFiles] ++ snd rest
   /\ spawned (final p) = spawned w ++ [TaskDiskUsage]
   /\ ext (final p) = snd (fst rest))
  /\ (0 < DiskSpaceLimit c1 ->
      let check := FsHasSpaceErr false x1 in
      spawned (final p) = spawned w
      /\ match snd check with
         | Some msg =>
             result p = Ret (Some (Foreign msg))
             /\ events p =
                  [ELog syncLog; ESync None; EIsSuspended false;
                   ESyncWithEnvironment; EPublish checkingMessage;
                   EHasSpaceErr false (Some msg)]
         | None =>
             let rest := permissionStep (FsUpdateConfigurationFiles (fst check)) in
             result p = Ret (fst (fst rest))
             /\ events p =
                  [ELog syncLog; ESync None; EIsSuspended false;
                   ESyncWithEnvironment; EPublish checkingMessage;
                   EHasSpaceErr false None;
                   EPublish updatingMessage; EUpdateConfigurationFiles] ++ snd rest
         end)
  /\ (forall a ws msg,
        binaryLock (srv w) ->
        IsStart a = true ->
        In (EHasSpaceErr false (Some msg)) (events (HandlePowerAction a ws w)) ->
        result (HandlePowerAction a ws w) = Ret (Some (Foreign msg))
        /\ noneOf isStartEvent (events (HandlePowerAction a ws w)) = true).
Proof.
  cbv zeta. intros Hsync Hsusp. split; [|split].
  - revert Hsync Hsusp.
    destruct w as [s x sp]. destruct s as [id l i t rs c p cc ed wc].
    cbn [srv ext cfg]. destruct (PanelSync c x) as [[x1 c1] r] eqn:E.
    cbn [fst snd]. intros -> Hsusp Hle. unfold permissionStep.
    apply Z.leb_le in Hle.
    run. rewrite E. run. rewrite Hsusp. run. rewrite Hle. run.
    repeat (first [recall | split_call]; run); repeat split; reflexivity.
  - revert Hsync Hsusp.
    destruct w as [s x sp]. destruct s as [id l i t rs c p cc ed wc].
    cbn [srv ext cfg]. destruct (PanelSync c x) as [[x1 c1] r] eqn:E.
    cbn [fst snd]. intros -> Hsusp Hlt. unfold permissionStep.
    apply Z.leb_gt in Hlt.
    run. rewrite E. run. rewrite Hsusp. run. rewrite Hlt. run.
    repeat (first [recall | split_call]; run); repeat split; reflexivity.
  - intros a ws msg Hb Ha Hi.
    assert (Hk : String.eqb a PowerActionTerminate = false)
      by (destruct (IsStart_cases a Ha) as [-> | ->]; reflexivity).
    destruct (passesGate (srv w)) eqn:Hg.
    + destruct (obtainsLock ws w) eqn:Ho.
      * rewrite (HandlePowerAction_locked _ _ _ Hb Hg Hk Ho) in *. cbv zeta in *.
        unfold events, result in *. cbn [fst snd] in *.
        apply in_app_or in Hi. destruct Hi as [Hi | Hi];
          [exfalso; exact (lock_not_HasSpaceErr _ _ _ (lockPrelude_lock_only _ _) Hi)|].
        apply in_app_or in Hi. destruct Hi as [Hi | [Hi | []]];
          [|discriminate Hi].
        destruct (powerSwitch_space_abort a _ msg Ha Hi) as [Hr Hn].
        split; [exact Hr|].
        rewrite !noneOf_app, (noneOf_lockPrelude _ _ _ lock_not_Start).
        unfold events in Hn. rewrite Hn. reflexivity.
      * rewrite (HandlePowerAction_refused _ _ _ Hg Hk Ho) in Hi.
        destruct (waits ws); destruct Hi as [Hi | []]; discriminate Hi.
    + rewrite (HandlePowerAction_gated _ _ _ Hg) in Hi. destruct Hi.
Qed.

End DiskSpaceStep.

Lemma onBeforeStart_disk_space_witness :
  snd (PanelSync (cfg (idleServer 100)) full) = None
  /\ Suspended (snd (fst (PanelSync (cfg (idleServer 100)) full))) = false
  /\ 0 < DiskSpaceLimit (snd (fst (PanelSync (cfg (idleServer 100)) full)))
  /\ result (onBeforeStart (world (idleServer 100) full))
     = Ret (Some (Foreign "filesystem: not enough disk space"))
  /\ DiskSpaceLimit (snd (fst (PanelSync (cfg (idleServer 0)) full))) <= 0
  /\ result (onBeforeStart (world (idleServer 0) full)) = Ret None
  /\ spawned (final (onBeforeStart (world (idleServer 0) full))) = [TaskDiskUsage].
Proof.
  assert (Hpos : 0 < DiskSpaceLimit (snd (fst (PanelSync (cfg (idleServer 100)) full))))
    by (cbn; lia).
  assert (Hzero : DiskSpaceLimit (snd (fst (PanelSync (cfg (idleServer 0)) full))) <= 0)
    by (cbn; lia).
  assert (Hsync : forall s, snd (PanelSync (cfg s) full) = None)
    by reflexivity.
  assert (Hsusp : forall n,
             Suspended (snd (fst (PanelSync (cfg (idleServer n)) full))) = false)
    by reflexivity.
  split; [reflexivity|]. split; [reflexivity|]. split; [exact Hpos|].
  destruct (onBeforeStart_disk_space (world (idleServer 100) full)
              (Hsync _) (Hsusp _)) as [_ [Hp _]].
  destruct (Hp Hpos) as [_ Hm]. split; [exact (proj1 Hm)|].
  split; [exact Hzero|].
  destruct (onBeforeStart_disk_space (world (idleServer 0) full)
              (Hsync _) (Hsusp _)) as [Hz _].
  destruct (Hz Hzero) as [Hr [_ [Hs _]]]. split; [exact Hr | exact Hs].
Defined.

(* ================================================================= *)
(** * Proofs about the router *)

Ltac run_router :=
  cbv beta iota zeta delta
    [bind ret emit onServer goNode Config_SetSuspended CtxCancel Events_Destroy
     Websockets_CancelAll Server_ID Filesystem_Path Environment_Destroy ByServer
     Manager_Remove deleteServer
     getServer putServer getExt putExt srv ext spawned heap manager
     downloads nodeExt nodeSpawned result final events fst snd foreign];
  cbn [app].

Lemma store_same (s : ptr) (v : Server) (h : ptr -> Server) : store s v h s = v.
Proof. unfold store. rewrite Nat.eqb_refl. reflexivity. Qed.

Lemma existsb_filter_false {A : Type} (f g : A -> bool) (l : list A) :
  (forall a, f a = true -> g a = false) ->
  existsb f (filter g l) = false.
Proof.
  intros Hfg. induction l as [|a l IH]; [reflexivity|].
  cbn [filter]. destruct (g a) eqn:G; [|exact IH].
  cbn [existsb]. rewrite IH.
  destruct (f a) eqn:F; [|reflexivity].
  rewrite (Hfg a F) in G. discriminate G.
Qed.

Section Teardown.

Context {X : Type} `{Collaborators X}.

Lemma forEach_Cancel (dls : list Download) (n : Node X) :
  let r := forEach dls Download_Cancel n in
  result r = Ret tt
  /\ events r = map (fun d => EDownloadCancel (dlServer d)) dls
  /\ heap (final r) = heap n
  /\ manager (final r) = manager n
  /\ nodeExt (final r) = nodeExt n
  /\ nodeSpawned (final r) = nodeSpawned n.
Proof.
  revert n. induction dls as [|d dls IH]; intros n.
  - repeat split.
  - cbn [forEach]. unfold bind, Download_Cancel.
    specialize (IH (mkNode (heap n) (manager n)
            (map (fun d0 => if Nat.eqb (dlIdentifier d0) (dlIdentifier d)
                           then mkDownload (dlIdentifier d0) (dlServer d0) true
                           else d0) (downloads n))
            (nodeExt n) (nodeSpawned n))).
    cbv zeta in IH. unfold result, final, events in *.
    fold (Download_Cancel (X := X)) in *.
    match goal with |- context [forEach dls Download_Cancel ?m] =>
      destruct (forEach dls Download_Cancel m) as [[r1 n1] t1] end.
    cbn [fst snd heap manager nodeExt nodeSpawned map app] in *.
    destruct IH as (E1 & E2 & E3 & E4 & E5 & E6).
    repeat split; try assumption. rewrite E2. reflexivity.
Qed.

(** The teardown in one piece: [h'] is the store of the servers it leaves,
    [d'] the downloads. *)
Lemma deleteServer_run (s : ptr) (n : Node X) :
  exists h' d',
    (forall p, h' p = if Nat.eqb p s then torn (heap n s) else heap n p)
    /\ deleteServer s n =
       match snd (EnvDestroy (nodeExt n)) with
       | Some msg =>
           (Ret (WithError (Foreign msg)),
            mkNode h' (manager n) d' (fst (EnvDestroy (nodeExt n))) (nodeSpawned n),
            teardownPrelude (ID (heap n s)) (downloads n) ++ [EDestroy (Some msg)])
       | None =>
           (Ret (Status StatusNoContent),
            mkNode h'
                   (filter (fun p => negb (String.eqb (ID (h' p)) (ID (heap n s))))
                           (manager n))
                   d' (fst (EnvDestroy (nodeExt n)))
                   (nodeSpawned n ++ [TaskRemoveAll (fsPath (heap n s))]),
            teardownPrelude (ID (heap n s)) (downloads n)
            ++ [EDestroy None; EGo (TaskRemoveAll (fsPath (heap n s)));
                EManagerRemove (ID (heap n s))])
       end.
Proof.
  destruct n as [h m d x sp]. run_router. repeat rewrite store_same.
  change (ID (setWebsocketsCancelled
                (setEventsDestroyed (setCtxCancelled (setSuspended true (h s))))))
    with (ID (h s)).
  match goal with |- context [forEach ?l Download_Cancel ?n0] =>
    pose proof (forEach_Cancel l n0) as F; cbv zeta in F;
    destruct (forEach l Download_Cancel n0) as [[r1 n1] t1] end.
  destruct n1 as [h1 m1 d1 x1 sp1].
  cbn [result final events fst snd heap manager nodeExt nodeSpawned] in F.
  destruct F as (-> & -> & -> & -> & -> & ->).
  run_router. repeat rewrite store_same.
  destruct (EnvDestroy x) as [x' [msg|]]; run_router; repeat rewrite store_same.
  - eexists. exists d1. split; [|unfold teardownPrelude; cbn [app]; reflexivity].
    intros p. unfold store, torn. destruct (Nat.eqb p s); reflexivity.
  - eexists. exists d1. split; [|unfold teardownPrelude; cbn [app]; reflexivity].
    intros p. unfold store, torn. destruct (Nat.eqb p s); reflexivity.
Qed.

(** C2.  The teardown suspends the server before anything else.  When
    [Destroy()] fails, the handler hands the error to the caller, the
    manager keeps its servers and no removal of files is started.  When
    [Destroy()] succeeds, the removal of the files is left to a goroutine
    that is still pending when the handler is done, and the manager has
    already lost the server: neither the pointer nor its identifier is
    registered any more. *)
Theorem deleteServer_cascade (s : ptr) (n : Node X) :
  let r := deleteServer s n in
  let sid := ID (heap n s) in
  let path := fsPath (heap n s) in
  Suspended (cfg (heap (final r) s)) = true
  /\ (exists rest, events r = ESetSuspended true :: rest)
  /\ match snd (EnvDestroy (nodeExt n)) with
     | Some msg =>
         result r = Ret (WithError (Foreign msg))
         /\ events r = teardownPrelude sid (downloads n) ++ [EDestroy (Some msg)]
         /\ manager (final r) = manager n
         /\ nodeSpawned (final r) = nodeSpawned n
     | None =>
         result r = Ret (Status StatusNoContent)
         /\ events r =
              teardownPrelude sid (downloads n)
              ++ [EDestroy None; EGo (TaskRemoveAll path); EManagerRemove sid]
         /\ nodeSpawned (final r) = nodeSpawned n ++ [TaskRemoveAll path]
         /\ registered (final r) s = false
         /\ registeredID (final r) sid = false
         /\ (forall p, In p (manager (final r)) <->
                       In p (manager n) /\ ID (heap n p) <> sid)
     end.
Proof.
  cbv zeta. destruct (deleteServer_run s n) as (h' & d' & Hh & E). rewrite E.
  assert (Hid : forall p, ID (h' p) = ID (heap n p)).
  { intros p. rewrite Hh. destruct (Nat.eqb p s) eqn:P; [|reflexivity].
    apply Nat.eqb_eq in P. subst p. reflexivity. }
  destruct (snd (EnvDestroy (nodeExt n))) as [msg|];
    cbn [result final events fst snd heap manager nodeSpawned].
  - split; [rewrite Hh, Nat.eqb_refl; reflexivity|].
    split; [eexists; reflexivity|]. repeat split.
  - split; [rewrite Hh, Nat.eqb_refl; reflexivity|].
    split; [eexists; reflexivity|].
    split; [reflexivity|]. split; [reflexivity|]. split; [reflexivity|].
    split; [|split].
    + unfold registered. cbn [manager]. apply existsb_filter_false.
      intros p P. apply Nat.eqb_eq in P. subst p.
      rewrite Hid, String.eqb_refl. reflexivity.
    + unfold registeredID. cbn [manager heap]. apply existsb_filter_false.
      intros p P. rewrite P. reflexivity.
    + intros p. rewrite filter_In, Hid, negb_true_iff, String.eqb_neq. reflexivity.
Qed.

End Teardown.

(** ** The probe in front of a reinstall, and none in front of a deletion *)

Section Exclusivity.

Context {X : Type} `{Collaborators X}.

(** The probe in one piece. *)
Lemma ExecutingPowerAction_run (w : World X) :
  binaryLock (srv w) ->
  ExecutingPowerAction w =
  (Ret (lockHeld (srv w)), w,
   match powerLock (srv w) with
   | None => []
   | Some l => if semaphore.held l then [ETryAcquire false]
               else [ETryAcquire true; ERelease]
   end).
Proof.
  destruct w as [s x sp]. destruct s as [id l i t rs c p cc ed wc].
  destruct l as [l|]; [|reflexivity].
  cbv [binaryLock srv powerLock]. intros [_ [Hc _]].
  pose proof (TryAcquire_held l) as Hh.
  cbv [ExecutingPowerAction powerLock_TryAcquire powerLock_Release bind ret
       getServer putServer emit fst snd srv powerLock ext spawned lockHeld
       setPowerLock ID installing transferring restoring cfg fsPath
       ctxCancelled eventsDestroyed websocketsCancelled].
  destruct (semaphore.TryAcquire 1 l) as [[|] l'] eqn:E; cbn [fst] in Hh;
    destruct (semaphore.held l); try discriminate Hh.
  - rewrite (TryAcquire_Release l l' Hc E). reflexivity.
  - reflexivity.
Qed.

(** C3, as the code has it.  A reinstall request on a server whose probe
    reports a power action in progress is answered 409 and starts nothing;
    with a free lock it is accepted and the reinstall is left to a
    goroutine.  A deletion request never probes the lock: no event of the
    teardown touches it, and the cascade starts, with the suspension,
    whether or not the lock is held. *)
Theorem postServerReinstall_conflict (s : ptr) (n : Node X) :
  binaryLock (heap n s) ->
  let r := postServerReinstall s n in
  (lockHeld (heap n s) = true ->
   result r = Ret (AbortWithStatusJSON StatusConflict reinstallConflict)
   /\ events r = [ETryAcquire false]
   /\ nodeSpawned (final r) = nodeSpawned n
   /\ manager (final r) = manager n
   /\ (forall p, heap (final r) p = heap n p))
  /\ (lockHeld (heap n s) = false ->
      result r = Ret (Status StatusAccepted)
      /\ nodeSpawned (final r) = nodeSpawned n ++ [TaskReinstall (ID (heap n s))])
  /\ noneOf isLockEvent (events (deleteServer s n)) = true
  /\ (exists rest, events (deleteServer s n) = ESetSuspended true :: rest).
Proof.
  intros Hb r.
  assert (E : onServer s ExecutingPowerAction n =
              (Ret (lockHeld (heap n s)),
               mkNode (store s (heap n s) (heap n)) (manager n) (downloads n)
                      (nodeExt n) (nodeSpawned n),
               match powerLock (heap n s) with
               | None => []
               | Some l => if semaphore.held l then [ETryAcquire false]
                           else [ETryAcquire true; ERelease]
               end)).
  { unfold onServer. rewrite ExecutingPowerAction_run by exact Hb. reflexivity. }
  split; [|split; [|split]].
  - intros Hl. subst r. unfold postServerReinstall, bind. rewrite E, Hl.
    unfold lockHeld in Hl. destruct (powerLock (heap n s)) as [l|];
      [|discriminate Hl]. rewrite Hl.
    cbn [ret result final events fst snd app nodeSpawned manager heap].
    repeat split. intros p. unfold store.
    destruct (Nat.eqb p s) eqn:P; [|reflexivity].
    apply Nat.eqb_eq in P. subst p. reflexivity.
  - intros Hl. subst r. unfold postServerReinstall, bind. rewrite E, Hl.
    cbv [onServer Server_ID bind getServer ret goNode heap manager downloads
         nodeExt nodeSpawned srv ext spawned result final fst snd].
    rewrite store_same. split; reflexivity.
  - destruct (deleteServer_run s n) as (h' & d' & _ & D). rewrite D.
    assert (Hp : forall l, noneOf isLockEvent (teardownPrelude (ID (heap n s)) l) = true).
    { intros l. unfold teardownPrelude. rewrite noneOf_app.
      apply andb_true_intro. split; [reflexivity|].
      induction (filter (fun d => String.eqb (dlServer d) (ID (heap n s))) l)
        as [|d ds IH]; [reflexivity | exact IH]. }
    destruct (snd (EnvDestroy (nodeExt n))); cbn [events snd];
      rewrite noneOf_app, Hp; reflexivity.
  - destruct (deleteServer_run s n) as (h' & d' & _ & D). rewrite D.
    destruct (snd (EnvDestroy (nodeExt n))); cbn [events snd];
      eexists; reflexivity.
Qed.

End Exclusivity.

Lemma deleteServer_cascade_witness :
  result (deleteServer 0%nat (twoServers undestroyable))
  = Ret (WithError (Foreign "docker: container in use"))
  /\ manager (final (deleteServer 0%nat (twoServers undestroyable))) = [0%nat; 1%nat]
  /\ nodeSpawned (final (deleteServer 0%nat (twoServers undestroyable))) = []
  /\ result (deleteServer 0%nat (twoServers quiet)) = Ret (Status StatusNoContent)
  /\ registered (final (deleteServer 0%nat (twoServers quiet))) 0%nat = false
  /\ nodeSpawned (final (deleteServer 0%nat (twoServers quiet)))
     = [TaskRemoveAll "/var/lib/pterodactyl/volumes/srv-1"].
Proof.
  destruct (deleteServer_cascade 0%nat (twoServers undestroyable))
    as [_ [_ [Hr [_ [Hm Hs]]]]].
  destruct (deleteServer_cascade 0%nat (twoServers quiet))
    as [_ [_ [Hr' [_ [Hs' [Hg _]]]]]].
  repeat split; assumption.
Defined.

Lemma postServerReinstall_conflict_witness :
  binaryLock (heap (twoServers quiet) 0%nat)
  /\ lockHeld (heap (twoServers quiet) 0%nat) = true
  /\ result (postServerReinstall 0%nat (twoServers quiet))
     = Ret (AbortWithStatusJSON StatusConflict reinstallConflict)
  /\ nodeSpawned (final (postServerReinstall 0%nat (twoServers quiet))) = [].
Proof.
  assert (Hb : binaryLock (heap (twoServers quiet) 0%nat)) by (cbn; lia).
  split; [exact Hb|]. split; [reflexivity|].
  destruct (postServerReinstall_conflict 0%nat (twoServers quiet) Hb) as [P _].
  destruct (P eq_refl) as [Hr [_ [Hs _]]]. split; [exact Hr | exact Hs].
Defined.

(** C3 as the spec words it fails: the probe reports a power action in
    progress on the first server, and the deletion request is not rejected:
    the cascade runs to its end and the server is deregistered. *)
Lemma deleteServer_ignores_probe :
  result (onServer 0%nat ExecutingPowerAction (twoServers quiet)) = Ret true
  /\ result (deleteServer 0%nat (twoServers quiet)) = Ret (Status StatusNoContent)
  /\ events (deleteServer 0%nat (twoServers quiet))
     = [ESetSuspended true; ECtxCancel; EEventsDestroy; EWebsocketsCancelAll;
        EDownloadCancel "srv-1"; EDestroy None;
        EGo (TaskRemoveAll "/var/lib/pterodactyl/volumes/srv-1");
        EManagerRemove "srv-1"]
  /\ manager (final (deleteServer 0%nat (twoServers quiet))) = [1%nat].
Proof.
  repeat split; reflexivity.
Qed.


(* ================================================================= *)
(** * Proofs about the lister *)

Section ListAtProofs.
Context {A : Type}.

Lemma copy_spec (dst src : list A) :
  let n := Nat.min (List.length dst) (List.length src) in
  fst (sftp.copy dst src) = Z.of_nat n
  /\ List.length (snd (sftp.copy dst src)) = List.length dst
  /\ (forall i, (i < n)%nat -> nth_error (snd (sftp.copy dst src)) i = nth_error src i)
  /\ (forall i, (n <= i)%nat -> nth_error (snd (sftp.copy dst src)) i = nth_error dst i).
Proof.
  cbv zeta. unfold sftp.copy. cbn [fst snd].
  set (n := Nat.min (List.length dst) (List.length src)).
  assert (Hf : List.length (firstn n src) = n)
    by (rewrite length_firstn; unfold n; lia).
  split; [reflexivity|]. split; [|split].
  - rewrite length_app, Hf, length_skipn. unfold n. lia.
  - intros i Hi. rewrite nth_error_app1 by lia.
    rewrite nth_error_firstn.
    destruct (Nat.ltb_spec i n); [reflexivity | lia].
  - intros i Hi. rewrite nth_error_app2 by lia. rewrite Hf.
    rewrite nth_error_skipn. f_equal. lia.
Qed.

(** C10, as the code has it.  At an offset at or past the end of the list
    [ListAt] returns [(0, io.EOF)] and leaves the buffer alone.  At an
    offset [0 <= o] inside the list it copies [n = min(len f, len l - o)]
    entries, entry [o + i] of the list to place [i] of the buffer, leaves
    the rest of the buffer alone, and returns [(n, io.EOF)] when
    [n < len f] and [(n, nil)] otherwise.  The only error it ever returns
    is [io.EOF]. *)
Theorem ListAt_spec (l f : list A) (o : Z) :
  let n := Z.min (Z.of_nat (List.length f)) (Z.of_nat (List.length l) - o) in
  (Z.of_nat (List.length l) <= o -> sftp.ListAt l f o = Ret (0, Some sftp.io_EOF, f))
  /\ (0 <= o < Z.of_nat (List.length l) ->
      exists f',
        sftp.ListAt l f o =
        Ret (n, (if n <? Z.of_nat (List.length f) then Some sftp.io_EOF else None), f')
        /\ List.length f' = List.length f
        /\ (forall i, (i < Z.to_nat n)%nat ->
                      nth_error f' i = nth_error l (Z.to_nat o + i))
        /\ (forall i, (Z.to_nat n <= i)%nat -> nth_error f' i = nth_error f i)
        /\ 0 <= n <= Z.of_nat (List.length f)
        /\ o + n <= Z.of_nat (List.length l))
  /\ (forall k e f', sftp.ListAt l f o = Ret (k, Some e, f') -> e = sftp.io_EOF).
Proof.
  cbv zeta. split; [|split].
  - intros Ho. unfold sftp.ListAt.
    destruct (o >=? Z.of_nat (List.length l)) eqn:E; [reflexivity | lia].
  - intros [Ho Hl]. unfold sftp.ListAt, sftp.sliceFrom.
    destruct (o >=? Z.of_nat (List.length l)) eqn:E; [lia|].
    destruct (o <? 0) eqn:E1; [lia|].
    destruct (Z.of_nat (List.length l) <? o) eqn:E2; [lia|]. cbn [orb].
    pose proof (copy_spec f (skipn (Z.to_nat o) l)) as C. cbv zeta in C.
    destruct (sftp.copy f (skipn (Z.to_nat o) l)) as [k f'] eqn:Ec.
    cbn [fst snd] in C. destruct C as (Ck & Clen & Cin & Cout).
    rewrite length_skipn in *.
    assert (Hk : k = Z.min (Z.of_nat (List.length f)) (Z.of_nat (List.length l) - o))
      by lia.
    rewrite <- Hk.
    assert (Hn : Z.to_nat k = Nat.min (List.length f) (List.length l - Z.to_nat o))
      by lia.
    exists f'. split; [destruct (k <? Z.of_nat (List.length f)); reflexivity|].
    split; [exact Clen|]. split; [|split; [|lia]].
    + intros i Hi. rewrite Cin by lia. apply nth_error_skipn.
    + intros i Hi. apply Cout. lia.
  - intros k e f'. unfold sftp.ListAt.
    destruct (o >=? Z.of_nat (List.length l)); [congruence|].
    destruct (sftp.sliceFrom l o) as [tail|msg]; [|discriminate].
    destruct (sftp.copy f tail) as [n f''].
    destruct (n <? Z.of_nat (List.length f)); congruence.
Qed.
End ListAtProofs.

Lemma ListAt_spec_witness :
  0 <= 1 < Z.of_nat (List.length [10; 20; 30])
  /\ exists f',
       sftp.ListAt [10; 20; 30] [0; 0; 0; 0] 1 = Ret (2, Some sftp.io_EOF, f')
       /\ nth_error f' 0 = Some 20
       /\ nth_error f' 1 = Some 30
       /\ nth_error f' 2 = Some 0.
Proof.
  assert (Ho : 0 <= 1 < Z.of_nat (List.length [10; 20; 30])) by (cbn; lia).
  split; [exact Ho|].
  destruct (ListAt_spec [10; 20; 30] [0; 0; 0; 0] 1) as [_ [P _]].
  destruct (P Ho) as [f' [E [_ [Hin [Hout _]]]]].
  exists f'. split; [exact E|].
  split; [exact (Hin 0%nat ltac:(cbn; lia))|].
  split; [exact (Hin 1%nat ltac:(cbn; lia))|].
  exact (Hout 2%nat ltac:(cbn; lia)).
Defined.

(** C10 as the spec words it, "for every offset", fails below zero: the
    offset is not past the end of the list, and the slice expression
    panics where the claim has two entries copied. *)
Lemma ListAt_negative_offset :
  sftp.ListAt [10; 20] [0; 0] (-1) = Panic "slice bounds out of range"
  /\ Z.min (Z.of_nat (List.length [0; 0])) (Z.of_nat (List.length [10; 20]) - (-1)) = 2.
Proof.
  split; reflexivity.
Qed.

(* ================================================================= *)
(** * Further proofs about the power actions *)

Section Dispatch.

Context {X : Type} `{Collaborators X}.

(** Terminate in one piece, on a server that passes the gate. *)
Lemma HandlePowerAction_Terminate_run (ws : list Z) (w : World X) :
  binaryLock (srv w) ->
  passesGate (srv w) = true ->
  HandlePowerAction PowerActionTerminate ws w =
  (Ret (foreign (snd (EnvTerminate os_Kill (ext w)))),
   mkWorld (if lockHeld (srv w) then srv w else released (srv w))
           (fst (EnvTerminate os_Kill (ext w))) (spawned w),
   match powerLock (srv w) with
   | None => [ENewLock]
   | Some _ => []
   end ++ [ETryAcquire (negb (lockHeld (srv w)));
           ETerminate os_Kill (snd (EnvTerminate os_Kill (ext w)))]
       ++ (if lockHeld (srv w) then [] else [ERelease])).
Proof.
  intros Hb Hg. unfold HandlePowerAction.
  change (String.eqb PowerActionTerminate PowerActionTerminate) with true.
  rewrite powerSwitch_Terminate.
  destruct w as [s x sp]; destruct s as [id l [|] [|] [|] c p cc ed wc];
    try discriminate Hg.
  destruct l as [[sz cu]|];
    cbv [binaryLock powerLock srv semaphore.size semaphore.cur] in Hb.
  - destruct Hb as [-> Hc].
    assert (Hcu : cu = 0 \/ cu = 1) by lia.
    destruct Hcu as [-> | ->]; run_lock;
      rewrite ?TryAcquire_free, ?TryAcquire_busy; run;
      destruct (EnvTerminate os_Kill x) as [x' [msg|]]; reflexivity.
  - run_lock; rewrite ?TryAcquire_free; run;
      destruct (EnvTerminate os_Kill x) as [x' [msg|]]; reflexivity.
Qed.

(** The switch does not touch the lock. *)
Lemma powerSwitch_no_lock_event (a : PowerAction) (w : World X) :
  noneOf isLockEvent (events (powerSwitch a w)) = true.
Proof.
  open_world w; run; repeat (split_call; run); reflexivity.
Qed.

Lemma count_app (p : Event -> bool) (l1 l2 : list Event) :
  count p (l1 ++ l2) = (count p l1 + count p l2)%nat.
Proof. unfold count. rewrite filter_app, length_app. reflexivity. Qed.

Lemma count_no_lock (p : Event -> bool) (l : list Event) :
  (forall e, p e = true -> isLockEvent e = true) ->
  noneOf isLockEvent l = true ->
  count p l = 0%nat.
Proof.
  intros Hp Hl. unfold count, noneOf in *. induction l as [|e l IH]; [reflexivity|].
  cbn [forallb] in Hl. apply andb_true_iff in Hl. destruct Hl as [He Hl].
  cbn [filter]. destruct (p e) eqn:P; [|exact (IH Hl)].
  rewrite (Hp e P) in He. discriminate He.
Qed.

Lemma acquisition_is_lock (e : Event) : isAcquisition e = true -> isLockEvent e = true.
Proof. destruct e; try discriminate; reflexivity. Qed.

Lemma release_is_lock (e : Event) : isRelease e = true -> isLockEvent e = true.
Proof. destruct e; try discriminate; reflexivity. Qed.

Lemma lockPrelude_counts (ws : list Z) (s : Server) :
  count isAcquisition (lockPrelude ws s) = 1%nat
  /\ count isRelease (lockPrelude ws s) = 0%nat.
Proof.
  unfold lockPrelude. destruct (powerLock s), (waits ws); split; reflexivity.
Qed.

(** The three ways a call can go, with what each leaves of the lock. *)
Lemma HandlePowerAction_lock_after (a : PowerAction) (ws : list Z) (w : World X) :
  binaryLock (srv w) ->
  lockHeld (srv (final (HandlePowerAction a ws w))) = true ->
  lockHeld (srv w) = true.
Proof.
  intros Hb Hl. destruct (passesGate (srv w)) eqn:Hg.
  - destruct (String.eqb a PowerActionTerminate) eqn:Ha.
    + apply String.eqb_eq in Ha. subst a.
      rewrite (HandlePowerAction_Terminate_run ws w Hb Hg) in Hl.
      cbn [final fst snd srv] in Hl.
      destruct (lockHeld (srv w)); [reflexivity | discriminate Hl].
    + destruct (obtainsLock ws w) eqn:Ho.
      * rewrite (HandlePowerAction_locked _ _ _ Hb Hg Ha Ho) in Hl.
        discriminate Hl.
      * rewrite (HandlePowerAction_refused _ _ _ Hg Ha Ho) in Hl. exact Hl.
  - rewrite (HandlePowerAction_gated _ _ _ Hg) in Hl. exact Hl.
Qed.

(** X1.  Whatever the action, the wait bound and the answers of the
    collaborators, a call of [HandlePowerAction] on a server whose lock is
    the one it creates returns (it neither dereferences a missing lock nor
    releases more than it holds), leaves such a lock, and creates the lock
    exactly when the server passes the entry gate and has none. *)
Theorem HandlePowerAction_safe (a : PowerAction) (ws : list Z) (w : World X) :
  binaryLock (srv w) ->
  let r := HandlePowerAction a ws w in
  (exists v, result r = Ret v)
  /\ binaryLock (srv (final r))
  /\ (In ENewLock (events r) <->
      passesGate (srv w) = true /\ powerLock (srv w) = None)
  /\ (passesGate (srv w) = true -> powerLock (srv (final r)) <> None).
Proof.
  intros Hb r. split; [|split; [exact (HandlePowerAction_binaryLock a ws w Hb)|]].
  - subst r. destruct (passesGate (srv w)) eqn:Hg.
    + destruct (String.eqb a PowerActionTerminate) eqn:Ha.
      * apply String.eqb_eq in Ha. subst a.
        rewrite (HandlePowerAction_Terminate_run ws w Hb Hg). eexists; reflexivity.
      * destruct (obtainsLock ws w) eqn:Ho.
        -- rewrite (HandlePowerAction_locked _ _ _ Hb Hg Ha Ho). cbv zeta.
           cbn [result fst]. apply powerSwitch_frame.
        -- rewrite (HandlePowerAction_refused _ _ _ Hg Ha Ho). eexists; reflexivity.
    + rewrite (HandlePowerAction_gated _ _ _ Hg). eexists; reflexivity.
  - subst r. destruct (passesGate (srv w)) eqn:Hg.
    + assert (Hnew : forall l, In ENewLock
                       (match powerLock (srv w) with
                        | None => [ENewLock]
                        | Some _ => []
                        end ++ l) <->
                     powerLock (srv w) = None \/ In ENewLock l).
      { intros l. destruct (powerLock (srv w)); cbn [app In]; split;
          intros; intuition discriminate. }
      destruct (String.eqb a PowerActionTerminate) eqn:Ha.
      * apply String.eqb_eq in Ha. subst a.
        rewrite (HandlePowerAction_Terminate_run ws w Hb Hg).
        cbn [events final fst snd srv]. split.
        -- rewrite Hnew. split.
           ++ intros [E | I]; [auto|].
              destruct (lockHeld (srv w)); cbn [app In] in I;
                intuition discriminate.
           ++ intros [_ E]. auto.
        -- intros _. destruct (lockHeld (srv w)) eqn:L.
           ++ unfold lockHeld in L. destruct (powerLock (srv w));
                [discriminate | discriminate L].
           ++ discriminate.
      * destruct (obtainsLock ws w) eqn:Ho.
        -- rewrite (HandlePowerAction_locked _ _ _ Hb Hg Ha Ho). cbv zeta.
           cbn [events final fst snd]. unfold lockPrelude.
           rewrite <- app_assoc. split; [|intros _; discriminate].
           rewrite Hnew. split.
           ++ intros [E | I]; [auto|]. exfalso.
              pose proof (powerSwitch_no_lock_event a
                            (withServer (acquired (srv w)) w)) as Hn.
              unfold noneOf in Hn. rewrite forallb_forall in Hn.
              destruct (waits ws); cbn [app In] in I;
                destruct I as [I | I]; try discriminate I;
                apply in_app_or in I; destruct I as [I | [I | []]];
                try discriminate I; specialize (Hn _ I); discriminate Hn.
           ++ intros [_ E]. auto.
        -- rewrite (HandlePowerAction_refused _ _ _ Hg Ha Ho).
           cbn [events final fst snd]. split.
           ++ split.
              ** destruct (waits ws); intros [I | []]; discriminate I.
              ** intros [_ E]. unfold obtainsLock, lockHeld in Ho.
                 rewrite E in Ho. discriminate Ho.
           ++ intros _ E. unfold obtainsLock, lockHeld in Ho.
              rewrite E in Ho. discriminate Ho.
    + rewrite (HandlePowerAction_gated _ _ _ Hg). cbn [events final fst snd].
      split; [|intros Hf; discriminate Hf].
      split; [intros [] | intros [Hf _]; discriminate Hf].
Qed.

(** X2.  Every path through [HandlePowerAction] pairs its acquisitions of
    the lock with its releases: a call takes the lock at most once, and lets
    go exactly as often as it took it. *)
Theorem HandlePowerAction_balanced (a : PowerAction) (ws : list Z) (w : World X) :
  binaryLock (srv w) ->
  let r := HandlePowerAction a ws w in
  count isAcquisition (events r) = count isRelease (events r)
  /\ (count isAcquisition (events r) <= 1)%nat.
Proof.
  intros Hb r. subst r. destruct (passesGate (srv w)) eqn:Hg.
  - destruct (String.eqb a PowerActionTerminate) eqn:Ha.
    + apply String.eqb_eq in Ha. subst a.
      rewrite (HandlePowerAction_Terminate_run ws w Hb Hg). cbn [events snd].
      destruct (powerLock (srv w)), (lockHeld (srv w)); split; cbn; lia.
    + destruct (obtainsLock ws w) eqn:Ho.
      * rewrite (HandlePowerAction_locked _ _ _ Hb Hg Ha Ho). cbv zeta.
        cbn [events snd]. rewrite !count_app.
        destruct (lockPrelude_counts ws (srv w)) as [-> ->].
        pose proof (powerSwitch_no_lock_event a (withServer (acquired (srv w)) w))
          as Hn.
        rewrite (count_no_lock _ _ acquisition_is_lock Hn).
        rewrite (count_no_lock _ _ release_is_lock Hn).
        split; cbn; lia.
      * rewrite (HandlePowerAction_refused _ _ _ Hg Ha Ho). cbn [events snd].
        destruct (waits ws); split; cbn; lia.
  - rewrite (HandlePowerAction_gated _ _ _ Hg). split; cbn; lia.
Qed.

End Dispatch.

Lemma HandlePowerAction_safe_witness :
  binaryLock (freshServer 0)
  /\ passesGate (freshServer 0) = true
  /\ In ENewLock (events (HandlePowerAction PowerActionStop [] (world (freshServer 0) quiet)))
  /\ powerLock (srv (final (HandlePowerAction PowerActionStop []
                              (world (freshServer 0) quiet)))) <> None.
Proof.
  assert (Hb : binaryLock (freshServer 0)) by exact I.
  split; [exact Hb|]. split; [reflexivity|].
  destruct (HandlePowerAction_safe PowerActionStop [] (world (freshServer 0) quiet) Hb)
    as [_ [_ [Hn Hl]]].
  split; [apply Hn; split; reflexivity | exact (Hl eq_refl)].
Defined.

Lemma HandlePowerAction_balanced_witness :
  binaryLock (idleServer 0)
  /\ count isAcquisition
       (events (HandlePowerAction PowerActionRestart [30] (world (idleServer 0) stuck)))
     = count isRelease
         (events (HandlePowerAction PowerActionRestart [30] (world (idleServer 0) stuck))).
Proof.
  assert (Hb : binaryLock (idleServer 0)) by (cbn; lia).
  split; [exact Hb|].
  exact (proj1 (HandlePowerAction_balanced PowerActionRestart [30]
                  (world (idleServer 0) stuck) Hb)).
Defined.

Section Actions.

Context {X : Type} `{Collaborators X}.

(** X3.  After a call of [HandlePowerAction] on a server whose lock nobody
    held, the probe answers that no power action is running, whatever the
    action was and however it ended; and a call never leaves the lock held
    when it was free before. *)
Theorem ExecutingPowerAction_after_dispatch
  (a : PowerAction) (ws : list Z) (w : World X) :
  binaryLock (srv w) ->
  lockHeld (srv w) = false ->
  let r := HandlePowerAction a ws w in
  lockHeld (srv (final r)) = false
  /\ result (ExecutingPowerAction (final r)) = Ret false.
Proof.
  intros Hb Hl r.
  assert (Hf : lockHeld (srv (final r)) = false).
  { destruct (lockHeld (srv (final r))) eqn:L; [|reflexivity].
    rewrite (HandlePowerAction_lock_after a ws w Hb L) in Hl. discriminate Hl. }
  split; [exact Hf|].
  rewrite (ExecutingPowerAction_run (final r)
             (HandlePowerAction_binaryLock a ws w Hb)).
  cbn [result fst]. rewrite Hf. reflexivity.
Qed.

Lemma powerSwitch_Stop :
  powerSwitch PowerActionStop = Environment_WaitForStop (X := X) 600 true.
Proof. reflexivity. Qed.

(** X4.  [Stop] never runs a step of the pipeline and never calls the
    backend's [Start()].  On a server that passes the entry gate and gets
    the lock it calls [WaitForStop(600, true)] once under the lock, returns
    that call's result as it is, and leaves the lock free. *)
Theorem HandlePowerAction_Stop (ws : list Z) (w : World X) :
  binaryLock (srv w) ->
  let r := HandlePowerAction PowerActionStop ws w in
  let stop := EnvWaitForStop 600 true (ext w) in
  noneOf isPipelineEvent (events r) = true
  /\ noneOf isStartEvent (events r) = true
  /\ (passesGate (srv w) = true ->
      obtainsLock ws w = true ->
      result r = Ret (foreign (snd stop))
      /\ events r =
           lockPrelude ws (srv w) ++ [EWaitForStop 600 true (snd stop); ERelease]
      /\ ext (final r) = fst stop
      /\ lockHeld (srv (final r)) = false).
Proof.
  intros Hb r stop. subst r.
  assert (Ha : String.eqb PowerActionStop PowerActionTerminate = false)
    by reflexivity.
  assert (Hs : powerSwitch PowerActionStop (withServer (acquired (srv w)) w) =
               (Ret (foreign (snd stop)),
                mkWorld (acquired (srv w)) (fst stop) (spawned w),
                [EWaitForStop 600 true (snd stop)])).
  { rewrite powerSwitch_Stop. subst stop. destruct w as [s x sp].
    cbv [Environment_WaitForStop bind getExt putExt emit ret withServer srv ext
         spawned fst snd].
    destruct (EnvWaitForStop 600 true x) as [x' r]. reflexivity. }
  destruct (passesGate (srv w)) eqn:Hg.
  - destruct (obtainsLock ws w) eqn:Ho.
    + rewrite (HandlePowerAction_locked _ _ _ Hb Hg Ha Ho). cbv zeta.
      rewrite Hs. cbn [result final events fst snd app ext srv withServer].
      rewrite !noneOf_app.
      rewrite (noneOf_lockPrelude _ _ _ lock_not_pipeline).
      rewrite (noneOf_lockPrelude _ _ _ lock_not_Start).
      repeat split; reflexivity.
    + rewrite (HandlePowerAction_refused _ _ _ Hg Ha Ho). cbn [events snd].
      repeat split; try discriminate; destruct (waits ws); reflexivity.
  - rewrite (HandlePowerAction_gated _ _ _ Hg). cbn [events snd].
    repeat split; discriminate.
Qed.

Lemma powerSwitch_unknown (a : PowerAction) (w : World X) :
  IsValid a = false ->
  powerSwitch a w = (Ret (Some (New unknownActionMessage)), w, []).
Proof.
  unfold IsValid. intros Hv.
  apply orb_false_elim in Hv. destruct Hv as [Hv Hr].
  apply orb_false_elim in Hv. destruct Hv as [Hv Hk].
  apply orb_false_elim in Hv. destruct Hv as [Hs Hp].
  unfold powerSwitch. rewrite Hs, Hp, Hr, Hk. reflexivity.
Qed.

(** X5.  An action that is none of the four never reaches the backend.  On
    a server that passes the entry gate and gets the lock, the call still
    takes the lock, returns the unknown-action error and lets go. *)
Theorem HandlePowerAction_unknown (a : PowerAction) (ws : list Z) (w : World X) :
  binaryLock (srv w) ->
  IsValid a = false ->
  let r := HandlePowerAction a ws w in
  noneOf isBackendEvent (events r) = true
  /\ (exists e, result r = Ret (Some e))
  /\ (passesGate (srv w) = true ->
      obtainsLock ws w = true ->
      result r = Ret (Some (New unknownActionMessage))
      /\ events r = lockPrelude ws (srv w) ++ [ERelease]
      /\ ext (final r) = ext w).
Proof.
  intros Hb Hv r. subst r.
  assert (Ha : String.eqb a PowerActionTerminate = false).
  { unfold IsValid in Hv. apply orb_false_elim in Hv. destruct Hv as [Hv _].
    apply orb_false_elim in Hv. destruct Hv as [_ Hk]. exact Hk. }
  assert (Hbk : forall e, isLockEvent e = true -> isBackendEvent e = false)
    by (intros e; destruct e; try discriminate; reflexivity).
  destruct (passesGate (srv w)) eqn:Hg.
  - destruct (obtainsLock ws w) eqn:Ho.
    + rewrite (HandlePowerAction_locked _ _ _ Hb Hg Ha Ho). cbv zeta.
      rewrite (powerSwitch_unknown a _ Hv).
      cbn [result final events fst snd app ext withServer].
      rewrite noneOf_app, (noneOf_lockPrelude _ _ _ Hbk).
      repeat split; eauto.
    + rewrite (HandlePowerAction_refused _ _ _ Hg Ha Ho).
      cbn [result events fst snd].
      repeat split; try discriminate; eauto; destruct (waits ws); reflexivity.
  - rewrite (HandlePowerAction_gated _ _ _ Hg). cbn [result events fst snd].
    repeat split; try discriminate; eauto.
Qed.

(** X6.  A non-terminate action dispatched with a wait bound other than
    zero on a held lock makes one blocking [Acquire] and no [TryAcquire].
    When that [Acquire] fails, its context being done before the lock came
    (the deadline passed, or the context was done when line 91 made it),
    the call returns the lock error, which wraps the deadline-exceeded
    condition, and changes nothing; when the [Acquire] gets the lock, the
    call runs the switch under the lock, returns its result with nothing
    but the [Acquire] before its events and the [Release] after them, and
    leaves the lock free. *)
Theorem HandlePowerAction_wait (a : PowerAction) (ws : list Z) (w : World X) :
  binaryLock (srv w) ->
  passesGate (srv w) = true ->
  a <> PowerActionTerminate ->
  waits ws = true ->
  lockHeld (srv w) = true ->
  let r := HandlePowerAction a ws w in
  let p := powerSwitch a (withServer (acquired (srv w)) w) in
  if HolderReleasesWithin (hd 0 ws) (ext w) then
    events r = EAcquire (hd 0 ws) true :: events p ++ [ERelease]
    /\ result r = result p
    /\ lockHeld (srv (final r)) = false
  else
    r = (Ret (Some LockTimeout), w, [EAcquire (hd 0 ws) false])
    /\ IsDeadlineExceeded LockTimeout = true.
Proof.
  intros Hb Hg Ha Hw Hl r p. subst r p. apply String.eqb_neq in Ha.
  assert (Hp : lockPrelude ws (srv w) = [EAcquire (hd 0 ws) true]).
  { unfold lockPrelude. rewrite Hw. unfold lockHeld in Hl.
    destruct (powerLock (srv w)); [reflexivity | discriminate Hl]. }
  destruct (HolderReleasesWithin (hd 0 ws) (ext w)) eqn:Hh.
  - assert (Ho : obtainsLock ws w = true)
      by (unfold obtainsLock; rewrite Hw, Hh; apply orb_true_r).
    rewrite (HandlePowerAction_locked _ _ _ Hb Hg Ha Ho). cbv zeta.
    cbn [result final events fst snd]. rewrite Hp.
    split; [reflexivity|]. split; reflexivity.
  - assert (Ho : obtainsLock ws w = false)
      by (unfold obtainsLock; rewrite Hw, Hh, Hl; reflexivity).
    rewrite (HandlePowerAction_refused _ _ _ Hg Ha Ho). rewrite Hw.
    split; reflexivity.
Qed.

(** X7.  On a server that passes the entry gate and gets the lock, with the
    backend offline, [Start] reads the state, runs the pipeline and, only
    when the pipeline has no objection, calls [Start()] and returns its
    result as it is; an error of the pipeline is returned as it is and
    [Start()] is not called.  The lock is free afterwards. *)
Theorem HandlePowerAction_Start_offline (ws : list Z) (w : World X) :
  binaryLock (srv w) ->
  passesGate (srv w) = true ->
  obtainsLock ws w = true ->
  EnvState (ext w) = ProcessOfflineState ->
  let r := HandlePowerAction PowerActionStart ws w in
  let p := onBeforeStart (withServer (acquired (srv w)) w) in
  lockHeld (srv (final r)) = false
  /\ match result p with
     | Ret None =>
         let st := EnvStart (ext (final p)) in
         result r = Ret (foreign (snd st))
         /\ events r =
              lockPrelude ws (srv w)
              ++ EState ProcessOfflineState :: events p
              ++ [EStart (snd st); ERelease]
     | Ret (Some e) =>
         result r = Ret (Some e)
         /\ events r =
              lockPrelude ws (srv w)
              ++ EState ProcessOfflineState :: events p ++ [ERelease]
         /\ noneOf isStartEvent (events r) = true
     | Panic _ => False
     end.
Proof.
  intros Hb Hg Ho Hs r p. subst r.
  assert (Ha : String.eqb PowerActionStart PowerActionTerminate = false)
    by reflexivity.
  rewrite (HandlePowerAction_locked _ _ _ Hb Hg Ha Ho). cbv zeta.
  rewrite (powerSwitch_Start_offline (withServer (acquired (srv w)) w) Hs).
  cbn [result final events fst snd]. split; [reflexivity|].
  rewrite startPhase_run. cbv zeta. fold p.
  pose proof (onBeforeStart_no_Start (withServer (acquired (srv w)) w)) as Hn.
  fold p in Hn.
  destruct (onBeforeStart_returns (withServer (acquired (srv w)) w)) as [v Hv].
  fold p in Hv. rewrite Hv. destruct v as [e|]; cbn [fst snd].
  - split; [reflexivity|]. split; [reflexivity|].
    rewrite noneOf_app, (noneOf_lockPrelude _ _ _ lock_not_Start).
    cbn [andb]. unfold noneOf, events in *.
    cbn [fst snd app forallb isStartEvent negb andb].
    rewrite forallb_app, Hn. reflexivity.
  - split; [reflexivity|]. unfold events. cbn [fst snd app].
    rewrite <- app_assoc. reflexivity.
Qed.

(** X8.  A server that is installing, transferring or restoring refuses
    every action, Terminate and unknown ones included, with the error of
    the first of these three flags that is set.  The call changes nothing,
    calls nothing and does not even create the lock. *)
Theorem HandlePowerAction_gate (a : PowerAction) (ws : list Z) (w : World X) :
  passesGate (srv w) = false ->
  let r := HandlePowerAction a ws w in
  final r = w
  /\ events r = []
  /\ (installing (srv w) = true -> result r = Ret (Some ErrServerIsInstalling))
  /\ (installing (srv w) = false -> transferring (srv w) = true ->
      result r = Ret (Some ErrServerIsTransferring))
  /\ (installing (srv w) = false -> transferring (srv w) = false ->
      result r = Ret (Some ErrServerIsRestoring)).
Proof.
  intros Hg r. subst r. rewrite (HandlePowerAction_gated a ws w Hg).
  cbn [result final events fst snd].
  split; [reflexivity|]. split; [reflexivity|].
  split; [intros ->; reflexivity|].
  split; intros -> ->; reflexivity.
Qed.

(** X9.  The pipeline stops at the first of its fail-fast steps that fails
    and returns the error of that step: the wrapped sync error, the
    suspension, the disk error as it is, or the wrapped chown error.  No
    step before its last one failed, and it returns no error when its last
    step did not fail.  It never panics. *)
Theorem onBeforeStart_fail_fast (w : World X) :
  let p := onBeforeStart w in
  result p = Ret (failureOf (last (events p) ESyncWithEnvironment))
  /\ noFailure (removelast (events p)) = true.
Proof.
  cbv zeta. unfold syncMessage, chownMessage.
  open_world w; run; repeat (split_call; run); split; reflexivity.
Qed.

End Actions.

(* ================================================================= *)
(** * Further proofs about the router *)

Section HandlerProofs.

Context {X : Type} `{Collaborators X} `{Requests X}.

(** X10.  Whatever the [size] parameter of the request parses to, the
    number of lines [getServerLogs] asks of [ReadLogfile] lies between 1
    and 100: it is the number asked when that lies in the range, and 100
    otherwise, also when the parameter is missing or is no number.  The
    handler answers the lines read, or the error of the read. *)
Theorem getServerLogs_size (query : option string) (s : ptr) (n : Node X) :
  let asked := Atoi (match query with Some v => v | None => "100" end) in
  exists l,
    1 <= l <= 100
    /\ (1 <= asked <= 100 -> l = asked)
    /\ (asked < 1 \/ 100 < asked -> l = 100)
    /\ result (getServerLogs query s n) =
       Ret (match snd (ReadLogfile l (nodeExt n)) with
            | Some msg => ServerError (Foreign msg)
            | None => JSON StatusOK (snd (fst (ReadLogfile l (nodeExt n))))
            end)
    /\ nodeExt (final (getServerLogs query s n))
       = fst (fst (ReadLogfile l (nodeExt n))).
Proof.
  cbv zeta. unfold getServerLogs.
  set (asked := Atoi match query with Some v => v | None => "100" end).
  set (l := if asked <=? 0 then 100 else if 100 <? asked then 100 else asked).
  exists l.
  assert (Hl : 1 <= l <= 100 /\ (1 <= asked <= 100 -> l = asked)
               /\ (asked < 1 \/ 100 < asked -> l = 100)).
  { subst l. destruct (asked <=? 0) eqn:E1; [lia|].
    destruct (100 <? asked) eqn:E2; lia. }
  destruct Hl as (H1 & H2 & H3).
  split; [exact H1|]. split; [exact H2|]. split; [exact H3|].
  destruct n as [h m d x sp].
  cbv [bind onServer Server_ReadLogfile getExt putExt ret result final fst snd
       heap manager downloads nodeExt nodeSpawned srv ext spawned foreign].
  destruct (ReadLogfile l x) as [[x' out] [msg|]]; split; reflexivity.
Qed.

Lemma IsStart_IsValid (a : PowerAction) : IsStart a = true -> IsValid a = true.
Proof.
  intros Ha. destruct (IsStart_cases a Ha) as [-> | ->]; reflexivity.
Qed.

(** X11.  [postServerPower] starts a power action only for a request it
    accepts.  A body that does not bind, an action that is none of the four
    (answered 422) and a start or restart of a suspended server (answered
    400) start nothing; the suspended flag is read for start and restart
    only, so stop and kill go through on a suspended server.  An accepted
    request is answered 202 and starts exactly one call of
    [HandlePowerAction] on that server with that action and a wait bound of
    30 seconds.  The handler changes no server. *)
Theorem postServerPower_dispatch
  (body : option PowerAction) (s : ptr) (d : Daemon X) :
  let r := postServerPower body s d in
  (body = None -> r = (Ret BindFailed, d, []))
  /\ (forall action,
        body = Some action ->
        IsValid action = false ->
        r = (Ret (Answered (AbortWithStatusJSON StatusUnprocessableEntity
                              invalidActionMessage)), d, []))
  /\ (forall action,
        body = Some action ->
        IsStart action = true ->
        Suspended (cfg (heap (node d) s)) = true ->
        result r = Ret (Answered (AbortWithStatusJSON StatusBadRequest
                                    suspendedMessage))
        /\ jobs (final r) = jobs d)
  /\ (forall action,
        body = Some action ->
        IsValid action = true ->
        IsStart action = false \/ Suspended (cfg (heap (node d) s)) = false ->
        result r = Ret (Answered (Status StatusAccepted))
        /\ jobs (final r) = jobs d ++ [JobPowerAction s action [30]])
  /\ (forall p, heap (node (final r)) p = heap (node d) p)
  /\ manager (node (final r)) = manager (node d).
Proof.
  cbv zeta.
  assert (Hst : forall p v (h : ptr -> Server), v = h s -> store s v h p = h p).
  { intros p v h ->. unfold store. destruct (Nat.eqb p s) eqn:P; [|reflexivity].
    apply Nat.eqb_eq in P. subst p. reflexivity. }
  split; [intros ->; reflexivity|]. split; [|split; [|split; [|split]]].
  - intros action -> Hv. unfold postServerPower. rewrite Hv. reflexivity.
  - intros action -> Ha Hs. unfold postServerPower.
    rewrite (IsStart_IsValid action Ha). cbn [negb].
    unfold IsStart in Ha. rewrite Ha.
    destruct d as [[h m dl x sp] js]. cbn [node heap cfg] in Hs.
    cbv [bind onNode onServer IsSuspended getServer emit ret result final fst snd
         node jobs heap manager downloads nodeExt nodeSpawned srv ext spawned].
    rewrite Hs. split; reflexivity.
  - intros action -> Hv Hor. unfold postServerPower. rewrite Hv. cbn [negb].
    fold (IsStart action).
    destruct d as [[h m dl x sp] js]. cbn [node heap cfg] in Hor.
    destruct (IsStart action) eqn:Ha.
    + destruct Hor as [Hf | Hs]; [discriminate Hf|].
      cbv [bind onNode onServer IsSuspended getServer emit ret goJob result
           final fst snd node jobs heap manager downloads nodeExt nodeSpawned srv
           ext spawned].
      rewrite Hs. split; reflexivity.
    + split; reflexivity.
  - intros p. unfold postServerPower. destruct body as [action|]; [|reflexivity].
    destruct (IsValid action); cbn [negb]; [|reflexivity].
    destruct d as [[h m dl x sp] js].
    destruct (String.eqb action PowerActionStart
              || String.eqb action PowerActionRestart);
      cbv [bind onNode onServer IsSuspended getServer emit ret goJob result
           final fst snd node jobs heap manager downloads nodeExt nodeSpawned srv
           ext spawned]; [|reflexivity].
    destruct (Suspended (cfg (h s))); cbn [fst snd heap node];
      apply Hst; reflexivity.
  - unfold postServerPower. destruct body as [action|]; [|reflexivity].
    destruct (IsValid action); cbn [negb]; [|reflexivity].
    destruct d as [[h m dl x sp] js].
    destruct (String.eqb action PowerActionStart
              || String.eqb action PowerActionRestart);
      cbv [bind onNode onServer IsSuspended getServer emit ret goJob result
           final fst snd node jobs heap manager downloads nodeExt nodeSpawned srv
           ext spawned]; [|reflexivity].
    destruct (Suspended (cfg (h s))); reflexivity.
Qed.

(** X12.  [patchServer] brings the backend environment in line with the
    configuration only after the update was taken: when
    [UpdateDataStructure] fails the handler answers its error and
    [SyncWithEnvironment] is not called; when it succeeds
    [SyncWithEnvironment] is called once, on the configuration the update
    left in the server, and the answer is 204. *)
Theorem patchServer_sync (body : string) (s : ptr) (n : Node X) :
  let r := patchServer body s n in
  let u := UpdateDataStructure body (cfg (heap n s)) (nodeExt n) in
  cfg (heap (final r) s) = snd (fst u)
  /\ match snd u with
     | Some msg =>
         result r = Ret (ServerError (Foreign msg))
         /\ events r = []
         /\ nodeExt (final r) = fst (fst u)
     | None =>
         result r = Ret (Answered (Status StatusNoContent))
         /\ events r = [ESyncWithEnvironment]
         /\ nodeExt (final r) = EnvSync (snd (fst u)) (fst (fst u))
     end.
Proof.
  cbv zeta. destruct n as [h m d x sp]. cbn [heap nodeExt].
  cbv [patchServer bind onServer Server_UpdateDataStructure SyncWithEnvironment
       getServer putServer getExt putExt emit ret result final events fst snd
       heap manager downloads nodeExt nodeSpawned srv ext spawned foreign].
  destruct (UpdateDataStructure body (cfg (h s)) x) as [[x' c'] [msg|]];
    cbn [fst snd app]; rewrite !store_same; repeat split; reflexivity.
Qed.

(** One turn of the loop of [postServerCommands]. *)
Lemma sendCommand_run (command : string) (s : ptr) (n : Node X) :
  exists h',
    (forall p, h' p = heap n p)
    /\ (err <- onServer s (Environment_SendCommand command) ;;
        match err with
        | Some _ => onServer s (Log_Warn sendFailedMessage)
        | None => ret tt
        end) n =
       (Ret tt,
        mkNode h' (manager n) (downloads n)
               (fst (EnvSendCommand command (nodeExt n))) (nodeSpawned n),
        match snd (EnvSendCommand command (nodeExt n)) with
        | Some _ => [ELog sendFailedMessage]
        | None => []
        end).
Proof.
  destruct n as [h m d x sp].
  cbv [bind onServer Environment_SendCommand Log_Warn getExt putExt emit ret
       fst snd heap manager downloads nodeExt nodeSpawned srv ext spawned foreign].
  destruct (EnvSendCommand command x) as [x' [msg|]]; cbn [app];
    eexists; (split; [|reflexivity]); intros p; unfold store;
    rewrite ?Nat.eqb_refl; destruct (Nat.eqb p s) eqn:P; try reflexivity;
    apply Nat.eqb_eq in P; subst p; reflexivity.
Qed.

(** Sending the commands one after the other, whatever each send answers. *)
Lemma sendCommands_run (commands : list string) (s : ptr) (n : Node X) :
  let r := forEach commands
             (fun command =>
                err <- onServer s (Environment_SendCommand command) ;;
                match err with
                | Some _ => onServer s (Log_Warn sendFailedMessage)
                | None => ret tt
                end) n in
  result r = Ret tt
  /\ nodeExt (final r)
     = fold_left (fun x command => fst (EnvSendCommand command x)) commands
                 (nodeExt n)
  /\ Forall (fun e => e = ELog sendFailedMessage) (events r)
  /\ (List.length (events r) <= List.length commands)%nat
  /\ manager (final r) = manager n
  /\ nodeSpawned (final r) = nodeSpawned n
  /\ (forall p, heap (final r) p = heap n p).
Proof.
  revert n. induction commands as [|c cs IH]; intros n.
  - cbn. repeat split; auto.
  - cbn [forEach fold_left List.length]. cbv zeta.
    destruct (sendCommand_run c s n) as (h' & Hh & E).
    match goal with |- context [result ?step] =>
      remember step as st eqn:Es end.
    unfold bind at 1 in Es. rewrite E in Es.
    match type of Es with context [forEach cs ?f ?n1] =>
      specialize (IH n1); cbv zeta in IH;
      destruct (forEach cs f n1) as [[r1 n2] t2] end.
    subst st.
    cbn [result final events fst snd manager nodeExt nodeSpawned heap] in *.
    destruct IH as (I1 & I2 & I3 & I4 & I5 & I6 & I7).
    split; [exact I1|]. split; [exact I2|].
    split; [apply Forall_app; split; [|exact I3];
            destruct (snd (EnvSendCommand c (nodeExt n))); auto|].
    split; [rewrite length_app;
            destruct (snd (EnvSendCommand c (nodeExt n))); cbn; lia|].
    split; [exact I5|]. split; [exact I6|].
    intros p. rewrite I7. apply Hh.
Qed.

(** X13.  [postServerCommands] sends nothing to a backend that does not
    run: it answers the error of [IsRunning], or 502 when the backend is
    stopped.  To a running backend it sends every command of the body, in
    order, goes on after a send that fails, logs one warning for each such
    send at most, and answers 204 whatever the sends returned. *)
Theorem postServerCommands_sends
  (body : option (list string)) (s : ptr) (n : Node X) :
  let r := postServerCommands body s n in
  let probe := EnvIsRunning (nodeExt n) in
  match snd probe with
  | Some msg =>
      result r = Ret (ServerError (Foreign msg))
      /\ nodeExt (final r) = fst (fst probe)
      /\ events r = []
  | None =>
      if snd (fst probe) then
        match body with
        | None => result r = Ret BindFailed /\ nodeExt (final r) = fst (fst probe)
        | Some commands =>
            result r = Ret (Answered (Status StatusNoContent))
            /\ nodeExt (final r)
               = fold_left (fun x command => fst (EnvSendCommand command x))
                           commands (fst (fst probe))
            /\ Forall (fun e => e = ELog sendFailedMessage) (events r)
            /\ (List.length (events r) <= List.length commands)%nat
        end
      else
        result r = Ret (Answered (AbortWithStatusJSON StatusBadGateway
                                    stoppedMessage))
        /\ nodeExt (final r) = fst (fst probe)
        /\ events r = []
  end.
Proof.
  cbv zeta. remember (postServerCommands body s n) as r eqn:Er.
  unfold postServerCommands in Er. unfold bind at 1 in Er.
  assert (E : exists h',
             onServer s Environment_IsRunning n =
             (Ret (snd (fst (EnvIsRunning (nodeExt n))),
                   foreign (snd (EnvIsRunning (nodeExt n)))),
              mkNode h' (manager n) (downloads n)
                     (fst (fst (EnvIsRunning (nodeExt n)))) (nodeSpawned n),
              [])).
  { destruct n as [h m d x sp].
    cbv [onServer Environment_IsRunning bind getExt putExt ret fst snd heap
         manager downloads nodeExt nodeSpawned srv ext spawned].
    destruct (EnvIsRunning x) as [[x' running] r0]. eexists. reflexivity. }
  destruct E as [h' E]. rewrite E in Er.
  destruct (EnvIsRunning (nodeExt n)) as [[x' running] [msg|]];
    cbn [fst snd foreign app] in Er |- *.
  - subst r. repeat split; reflexivity.
  - destruct running; cbn [negb] in Er; [|subst r; repeat split; reflexivity].
    destruct body as [commands|]; [|subst r; split; reflexivity].
    unfold bind at 1 in Er.
    match type of Er with context [forEach commands ?f ?n1] =>
      pose proof (sendCommands_run commands s n1) as S; cbv zeta in S;
      destruct (forEach commands f n1) as [[r1 n2] t2] end.
    cbn [result final events fst snd nodeExt] in S.
    destruct S as (S1 & S2 & S3 & S4 & _). subst r1.
    cbv [ret] in Er. subst r. cbn [result final events fst snd app].
    rewrite app_nil_r. repeat split; assumption.
Qed.

(** X14.  A deletion is not rolled back: whether [Destroy()] succeeds or
    fails, [deleteServer] leaves the server suspended, with its context
    cancelled, its event bus destroyed and its sockets cancelled, and leaves
    its identifier, its power lock and its gate flags as they were; after a
    failed [Destroy()] the server is still registered in that state.  No
    other server is changed. *)
Theorem deleteServer_leaves (s : ptr) (n : Node X) :
  let r := deleteServer s n in
  heap (final r) s = torn (heap n s)
  /\ (forall p, p <> s -> heap (final r) p = heap n p)
  /\ ID (heap (final r) s) = ID (heap n s)
  /\ powerLock (heap (final r) s) = powerLock (heap n s)
  /\ passesGate (heap (final r) s) = passesGate (heap n s)
  /\ Suspended (cfg (heap (final r) s)) = true
  /\ ctxCancelled (heap (final r) s) = true
  /\ eventsDestroyed (heap (final r) s) = true
  /\ websocketsCancelled (heap (final r) s) = true
  /\ (snd (EnvDestroy (nodeExt n)) <> None ->
      registered (final r) s = registered n s).
Proof.
  cbv zeta. destruct (deleteServer_run s n) as (h' & d' & Hh & E). rewrite E.
  assert (Hs : h' s = torn (heap n s)) by (rewrite Hh, Nat.eqb_refl; reflexivity).
  assert (Ho : forall p, p <> s -> h' p = heap n p).
  { intros p Hp. rewrite Hh. apply Nat.eqb_neq in Hp. rewrite Hp. reflexivity. }
  destruct (snd (EnvDestroy (nodeExt n))) as [msg|];
    cbn [final fst snd heap]; rewrite Hs;
    (split; [reflexivity|]); (split; [exact Ho|]);
    repeat (split; [reflexivity|]).
  - intros _. reflexivity.
  - intros Hn. contradiction Hn. reflexivity.
Qed.

(** X15.  Once the teardown of a server has begun, the router refuses to
    start or restart it: after [deleteServer], whether [Destroy()] succeeded
    or not, [postServerPower] answers a start or a restart of that server
    with 400 and starts no power action. *)
Theorem deleteServer_then_postServerPower
  (action : PowerAction) (s : ptr) (d : Daemon X) :
  IsStart action = true ->
  let d1 := final (onNode (deleteServer s) d) in
  let r := postServerPower (Some action) s d1 in
  result r = Ret (Answered (AbortWithStatusJSON StatusBadRequest suspendedMessage))
  /\ jobs (final r) = jobs d.
Proof.
  intros Ha d1 r.
  assert (Hs : Suspended (cfg (heap (node d1) s)) = true).
  { subst d1. unfold onNode, final.
    destruct (deleteServer_run s (node d)) as (h' & d' & Hh & E). rewrite E.
    destruct (snd (EnvDestroy (nodeExt (node d))));
      cbn [fst snd node heap]; rewrite Hh, Nat.eqb_refl; reflexivity. }
  assert (Hj : jobs d1 = jobs d).
  { subst d1. unfold onNode, final.
    destruct (deleteServer s (node d)) as [[r0 n0] t0]. reflexivity. }
  subst r. unfold postServerPower.
  rewrite (IsStart_IsValid action Ha). cbn [negb].
  unfold IsStart in Ha. rewrite Ha.
  destruct d1 as [[h m dl x sp] js]. cbn [node heap cfg jobs] in Hs, Hj.
  cbv [bind onNode onServer IsSuspended getServer emit ret result final fst snd
       node jobs heap manager downloads nodeExt nodeSpawned srv ext spawned].
  rewrite Hs. split; [reflexivity | exact Hj].
Qed.

End HandlerProofs.

(* ================================================================= *)
(** * Further proofs about the lister *)

Section Paging.

Context {A : Type}.

(** [ListAt] inside the list, in one piece. *)
Lemma ListAt_inside (l f : list A) (o : Z) :
  0 <= o < Z.of_nat (List.length l) ->
  let tail := skipn (Z.to_nat o) l in
  let n := Nat.min (List.length f) (List.length tail) in
  sftp.ListAt l f o =
  Ret (Z.of_nat n,
       (if Z.of_nat n <? Z.of_nat (List.length f) then Some sftp.io_EOF else None),
       firstn n tail ++ skipn n f).
Proof.
  intros [Ho Hl]. cbv zeta. unfold sftp.ListAt, sftp.sliceFrom, sftp.copy.
  destruct (o >=? Z.of_nat (List.length l)) eqn:E; [lia|].
  destruct (o <? 0) eqn:E1; [lia|].
  destruct (Z.of_nat (List.length l) <? o) eqn:E2; [lia|]. cbn [orb].
  destruct (Z.of_nat (Nat.min (List.length f)
                        (List.length (skipn (Z.to_nat o) l)))
            <? Z.of_nat (List.length f)); reflexivity.
Qed.

(** X16.  Inside the list [ListAt] reports [io.EOF] exactly when fewer
    entries are left than the buffer holds.  A listing that ends just where
    the buffer ends is returned without an error, and it is the next call,
    at the end of the list, that reports [io.EOF] and copies nothing; and
    an empty buffer inside the list gets [(0, nil)]: no entry and no end. *)
Theorem ListAt_eof (l f : list A) (o : Z) :
  0 <= o < Z.of_nat (List.length l) ->
  exists n f',
    sftp.ListAt l f o =
    Ret (n,
         (if o + Z.of_nat (List.length f) <=? Z.of_nat (List.length l)
          then None else Some sftp.io_EOF),
         f')
    /\ List.length f' = List.length f
    /\ (o + Z.of_nat (List.length f) = Z.of_nat (List.length l) ->
        n = Z.of_nat (List.length f)
        /\ sftp.ListAt l f' (o + n) = Ret (0, Some sftp.io_EOF, f'))
    /\ (f = [] -> n = 0 /\ f' = []).
Proof.
  intros Ho. rewrite (ListAt_inside l f o Ho). cbv zeta.
  set (tail := skipn (Z.to_nat o) l).
  assert (Ht : List.length tail = (List.length l - Z.to_nat o)%nat)
    by apply length_skipn.
  set (n := Nat.min (List.length f) (List.length tail)).
  assert (Hlen : List.length (firstn n tail ++ skipn n f) = List.length f).
  { rewrite length_app, length_firstn, length_skipn. unfold n. lia. }
  exists (Z.of_nat n), (firstn n tail ++ skipn n f).
  split; [|split; [exact Hlen|split]].
  - destruct (Z.ltb_spec (Z.of_nat n) (Z.of_nat (List.length f))) as [E1 | E1];
      destruct (Z.leb_spec (o + Z.of_nat (List.length f))
                           (Z.of_nat (List.length l))) as [E2 | E2];
      try reflexivity; exfalso; unfold n in E1; lia.
  - intros Hfit. assert (Hn : Z.of_nat n = Z.of_nat (List.length f))
      by (unfold n; lia).
    split; [exact Hn|]. unfold sftp.ListAt.
    destruct (o + Z.of_nat n >=? Z.of_nat (List.length l)) eqn:E;
      [reflexivity | lia].
  - intros ->. split; reflexivity.
Qed.

Lemma skipn_step (l : list A) (o n : nat) :
  firstn n (skipn o l) ++ skipn (o + n) l = skipn o l.
Proof.
  rewrite <- (firstn_skipn n (skipn o l)) at 2.
  rewrite skipn_skipn. f_equal. f_equal. lia.
Qed.

Lemma readListing_from (l : list A) (fuel : nat) :
  forall (buf : list A) (o : Z),
    buf <> [] ->
    0 <= o <= Z.of_nat (List.length l) ->
    (List.length l - Z.to_nat o < fuel)%nat ->
    readListing fuel l buf o = Some (skipn (Z.to_nat o) l).
Proof.
  induction fuel as [|fuel IH]; intros buf o Hb Ho Hf; [lia|].
  cbn [readListing].
  destruct (Z.eq_dec o (Z.of_nat (List.length l))) as [-> | Hne].
  - unfold sftp.ListAt.
    destruct (Z.of_nat (List.length l) >=? Z.of_nat (List.length l)) eqn:E; [|lia].
    rewrite Nat2Z.id, skipn_all. reflexivity.
  - assert (Hin : 0 <= o < Z.of_nat (List.length l)) by lia.
    rewrite (ListAt_inside l buf o Hin). cbv zeta.
    set (tail := skipn (Z.to_nat o) l).
    assert (Ht : List.length tail = (List.length l - Z.to_nat o)%nat)
      by apply length_skipn.
    set (n := Nat.min (List.length buf) (List.length tail)).
    assert (Hbl : (0 < List.length buf)%nat)
      by (destruct buf; [contradiction Hb; reflexivity | cbn; lia]).
    assert (Hfirst : firstn n (firstn n tail ++ skipn n buf) = firstn n tail).
    { rewrite firstn_app, length_firstn.
      replace (n - Nat.min n (List.length tail))%nat with 0%nat by (unfold n; lia).
      cbn [firstn]. rewrite app_nil_r, firstn_firstn. f_equal. lia. }
    rewrite Nat2Z.id.
    destruct (Z.ltb_spec (Z.of_nat n) (Z.of_nat (List.length buf))) as [E | E].
    + rewrite Hfirst. f_equal. apply firstn_all2. unfold n in *. lia.
    + rewrite IH.
      * rewrite Hfirst. f_equal.
        replace (Z.to_nat (o + Z.of_nat n)) with (Z.to_nat o + n)%nat by lia.
        apply skipn_step.
      * intros Hnil. apply (f_equal (@List.length A)) in Hnil.
        rewrite length_app, length_firstn, length_skipn in Hnil.
        cbn [List.length] in Hnil. unfold n in *. lia.
      * unfold n in *. lia.
      * unfold n in *. lia.
Qed.

(** X17.  Reading a listing through [ListAt] gives the list back: a reader
    with a buffer of any size but zero, which starts at offset 0, takes what
    each call counted and moves on by the count until a call reports an
    error, has read exactly the entries of the list, in order, after at
    most one call more than the list has entries. *)
Theorem readListing_all (l buf : list A) :
  buf <> [] ->
  readListing (S (List.length l)) l buf 0 = Some l.
Proof.
  intros Hb. rewrite (readListing_from l (S (List.length l)) buf 0 Hb); [reflexivity| |]; lia.
Qed.

End Paging.

Lemma ListAt_eof_witness :
  0 <= 1 < Z.of_nat (List.length [10; 20; 30])
  /\ exists f',
       sftp.ListAt [10; 20; 30] [0; 0] 1 = Ret (2, None, f')
       /\ sftp.ListAt [10; 20; 30] f' 3 = Ret (0, Some sftp.io_EOF, f').
Proof.
  assert (Ho : 0 <= 1 < Z.of_nat (List.length [10; 20; 30])) by (cbn; lia).
  split; [exact Ho|].
  destruct (ListAt_eof [10; 20; 30] [0; 0] 1 Ho) as (n & f' & E & _ & Hfit & _).
  destruct (Hfit eq_refl) as [-> Hnext].
  exists f'. split; [exact E | exact Hnext].
Defined.

Lemma readListing_all_witness :
  [0; 0] <> []
  /\ readListing 6 [10; 20; 30; 40; 50] [0; 0] 0 = Some [10; 20; 30; 40; 50].
Proof.
  assert (Hb : [0; 0] <> ([] : list Z)) by discriminate.
  split; [exact Hb|].
  exact (readListing_all [10; 20; 30; 40; 50] [0; 0] Hb).
Defined.

Lemma ExecutingPowerAction_after_dispatch_witness :
  binaryLock (freshServer 0)
  /\ lockHeld (freshServer 0) = false
  /\ result (ExecutingPowerAction
               (final (HandlePowerAction PowerActionStart [30]
                         (world (freshServer 0) refusing)))) = Ret false.
Proof.
  assert (Hb : binaryLock (freshServer 0)) by exact I.
  split; [exact Hb|]. split; [reflexivity|].
  exact (proj2 (ExecutingPowerAction_after_dispatch PowerActionStart [30]
                  (world (freshServer 0) refusing) Hb eq_refl)).
Defined.

Lemma HandlePowerAction_Stop_witness :
  binaryLock (idleServer 0)
  /\ passesGate (idleServer 0) = true
  /\ obtainsLock [] (world (idleServer 0) stuck) = true
  /\ result (HandlePowerAction PowerActionStop [] (world (idleServer 0) stuck))
     = Ret (Some (Foreign "context deadline exceeded"))
  /\ events (HandlePowerAction PowerActionStop [] (world (idleServer 0) stuck))
     = [ETryAcquire true;
        EWaitForStop 600 true (Some "context deadline exceeded"); ERelease].
Proof.
  assert (Hb : binaryLock (idleServer 0)) by (cbn; lia).
  split; [exact Hb|]. split; [reflexivity|]. split; [reflexivity|].
  destruct (HandlePowerAction_Stop [] (world (idleServer 0) stuck) Hb)
    as [_ [_ P]].
  destruct (P eq_refl eq_refl) as [Hr [He _]]. split; [exact Hr | exact He].
Defined.

Lemma HandlePowerAction_unknown_witness :
  binaryLock (idleServer 0)
  /\ IsValid "hibernate" = false
  /\ passesGate (idleServer 0) = true
  /\ obtainsLock [] (world (idleServer 0) running) = true
  /\ result (HandlePowerAction "hibernate" [] (world (idleServer 0) running))
     = Ret (Some (New unknownActionMessage))
  /\ events (HandlePowerAction "hibernate" [] (world (idleServer 0) running))
     = [ETryAcquire true; ERelease].
Proof.
  assert (Hb : binaryLock (idleServer 0)) by (cbn; lia).
  assert (Hv : IsValid "hibernate" = false) by reflexivity.
  split; [exact Hb|]. split; [exact Hv|]. split; [reflexivity|].
  split; [reflexivity|].
  destruct (HandlePowerAction_unknown "hibernate" [] (world (idleServer 0) running)
              Hb Hv) as [_ [_ P]].
  destruct (P eq_refl eq_refl) as [Hr [He _]]. split; [exact Hr | exact He].
Defined.

Lemma HandlePowerAction_wait_witness :
  binaryLock (busyServer 0)
  /\ passesGate (busyServer 0) = true
  /\ PowerActionStop <> PowerActionTerminate
  /\ waits [30] = true
  /\ lockHeld (busyServer 0) = true
  /\ HandlePowerAction PowerActionStop [30] (world (busyServer 0) quiet)
     = (Ret (Some LockTimeout), world (busyServer 0) quiet, [EAcquire 30 false])
  /\ lockHeld (srv (final (HandlePowerAction PowerActionStop [30]
                             (world (busyServer 0) yielding)))) = false.
Proof.
  assert (Hb : binaryLock (busyServer 0)) by (cbn; lia).
  assert (Ha : PowerActionStop <> PowerActionTerminate) by discriminate.
  split; [exact Hb|]. split; [reflexivity|]. split; [exact Ha|].
  split; [reflexivity|]. split; [reflexivity|].
  pose proof (HandlePowerAction_wait PowerActionStop [30]
                (world (busyServer 0) quiet) Hb eq_refl Ha eq_refl eq_refl) as P.
  pose proof (HandlePowerAction_wait PowerActionStop [30]
                (world (busyServer 0) yielding) Hb eq_refl Ha eq_refl eq_refl) as Q.
  cbv zeta in P, Q.
  change (HolderReleasesWithin (hd 0 [30]) (ext (world (busyServer 0) quiet)))
    with false in P.
  change (HolderReleasesWithin (hd 0 [30]) (ext (world (busyServer 0) yielding)))
    with true in Q.
  cbv iota in P, Q.
  split; [exact (proj1 P) | exact (proj2 (proj2 Q))].
Defined.

Lemma HandlePowerAction_Start_offline_witness :
  binaryLock (idleServer 0)
  /\ passesGate (idleServer 0) = true
  /\ obtainsLock [] (world (idleServer 0) refusing) = true
  /\ EnvState (ext (world (idleServer 0) refusing)) = ProcessOfflineState
  /\ lockHeld (srv (final (HandlePowerAction PowerActionStart []
                             (world (idleServer 0) refusing)))) = false.
Proof.
  assert (Hb : binaryLock (idleServer 0)) by (cbn; lia).
  split; [exact Hb|]. split; [reflexivity|]. split; [reflexivity|].
  split; [reflexivity|].
  exact (proj1 (HandlePowerAction_Start_offline [] (world (idleServer 0) refusing)
                  Hb eq_refl eq_refl eq_refl)).
Defined.

Lemma HandlePowerAction_gate_witness :
  passesGate transferringServer = false
  /\ result (HandlePowerAction PowerActionTerminate [] (world transferringServer quiet))
     = Ret (Some ErrServerIsTransferring)
  /\ events (HandlePowerAction PowerActionTerminate [] (world transferringServer quiet))
     = [].
Proof.
  assert (Hg : passesGate transferringServer = false) by reflexivity.
  split; [exact Hg|].
  destruct (HandlePowerAction_gate PowerActionTerminate []
              (world transferringServer quiet) Hg) as [_ [He [_ [Ht _]]]].
  split; [exact (Ht eq_refl eq_refl) | exact He].
Defined.

Lemma deleteServer_then_postServerPower_witness :
  IsStart PowerActionRestart = true
  /\ result (postServerPower (Some PowerActionRestart) 0%nat
               (final (onNode (deleteServer 0%nat) (daemon undestroyable))))
     = Ret (Answered (AbortWithStatusJSON StatusBadRequest suspendedMessage)).
Proof.
  assert (Ha : IsStart PowerActionRestart = true) by reflexivity.
  split; [exact Ha|].
  exact (proj1 (deleteServer_then_postServerPower PowerActionRestart 0%nat
                  (daemon undestroyable) Ha)).
Defined.

(* ================================================================= *)
(** * Further proofs about the dispatch as a whole *)

Section Discipline.

Context {X : Type} `{Collaborators X}.

Lemma underLock_no_lock (l rest : list Event) :
  noneOf isLockEvent l = true ->
  underLock true (l ++ rest) = underLock true rest.
Proof.
  unfold noneOf. induction l as [|e l IH]; intros Hl; [reflexivity|].
  cbn [forallb] in Hl. apply andb_true_iff in Hl. destruct Hl as [He Hl].
  apply negb_true_iff in He. cbn [app underLock].
  assert (Ha : isAcquisition e = false)
    by (destruct (isAcquisition e) eqn:A; [|reflexivity];
        rewrite (acquisition_is_lock e A) in He; discriminate He).
  assert (Hr : isRelease e = false)
    by (destruct (isRelease e) eqn:R; [|reflexivity];
        rewrite (release_is_lock e R) in He; discriminate He).
  rewrite Ha, Hr, He. cbn [andb]. exact (IH Hl).
Qed.

(** X18.  A non-terminate action touches the backend and the pipeline only
    while it holds the lock: in every run of [HandlePowerAction] for such an
    action, whatever is not a lock event comes after the call took the lock
    and before it let go. *)
Theorem HandlePowerAction_under_lock
  (a : PowerAction) (ws : list Z) (w : World X) :
  binaryLock (srv w) ->
  a <> PowerActionTerminate ->
  underLock false (events (HandlePowerAction a ws w)) = true.
Proof.
  intros Hb Ha. apply String.eqb_neq in Ha.
  destruct (passesGate (srv w)) eqn:Hg.
  - destruct (obtainsLock ws w) eqn:Ho.
    + rewrite (HandlePowerAction_locked _ _ _ Hb Hg Ha Ho). cbv zeta.
      cbn [events snd].
      assert (Hp : forall rest,
                 underLock false (lockPrelude ws (srv w) ++ rest)
                 = underLock true rest).
      { intros rest. unfold lockPrelude.
        destruct (powerLock (srv w)), (waits ws); reflexivity. }
      rewrite Hp, underLock_no_lock by apply powerSwitch_no_lock_event.
      reflexivity.
    + rewrite (HandlePowerAction_refused _ _ _ Hg Ha Ho). cbn [events snd].
      destruct (waits ws); reflexivity.
  - rewrite (HandlePowerAction_gated _ _ _ Hg). reflexivity.
Qed.

Lemma startPhase_success (w : World X) :
  result (startPhase w) = Ret None ->
  In (EStart None) (events (startPhase w)).
Proof.
  rewrite startPhase_run. cbv zeta.
  destruct (result (onBeforeStart w)) as [[e|]|m]; cbn [result events fst snd];
    try discriminate.
  destruct (snd (EnvStart (ext (final (onBeforeStart w))))); [discriminate|].
  intros _. apply in_or_app. right. left. reflexivity.
Qed.

(** X19.  [HandlePowerAction] reports success only when the backend did
    what the action asks: a start or a restart that returns no error has
    called [Start()] and that call returned none (and, for a restart, so did
    the stop-wait before it); a stop has had its [WaitForStop(600, true)]
    return none; a kill its [Terminate(os.Kill)].  No other action ever
    returns without an error. *)
Theorem HandlePowerAction_success (a : PowerAction) (ws : list Z) (w : World X) :
  binaryLock (srv w) ->
  let r := HandlePowerAction a ws w in
  result r = Ret None ->
  (a = PowerActionStart /\ In (EStart None) (events r))
  \/ (a = PowerActionRestart
      /\ In (EWaitForStop 600 true None) (events r)
      /\ In (EStart None) (events r))
  \/ (a = PowerActionStop /\ In (EWaitForStop 600 true None) (events r))
  \/ (a = PowerActionTerminate /\ In (ETerminate os_Kill None) (events r)).
Proof.
  intros Hb r Hr. subst r. destruct (passesGate (srv w)) eqn:Hg.
  - destruct (String.eqb a PowerActionTerminate) eqn:Ha.
    + apply String.eqb_eq in Ha. subst a. right. right. right.
      split; [reflexivity|].
      rewrite (HandlePowerAction_Terminate_run ws w Hb Hg) in *.
      cbn [result events fst snd] in *.
      destruct (snd (EnvTerminate os_Kill (ext w))); [discriminate Hr|].
      apply in_or_app. right. right. left. reflexivity.
    + destruct (obtainsLock ws w) eqn:Ho.
      * rewrite (HandlePowerAction_locked _ _ _ Hb Hg Ha Ho) in *.
        cbv zeta in *. cbn [result events fst snd] in *.
        set (w0 := withServer (acquired (srv w)) w) in *.
        assert (Hmid : forall e, In e (events (powerSwitch a w0)) ->
                   In e (lockPrelude ws (srv w)
                         ++ events (powerSwitch a w0) ++ [ERelease])).
        { intros e He. apply in_or_app. right. apply in_or_app. left. exact He. }
        unfold events in Hmid.
        destruct (String.eqb a PowerActionStart) eqn:E1.
        { apply String.eqb_eq in E1. subst a. left. split; [reflexivity|].
          apply Hmid.
          destruct (ProcessState_eqb (EnvState (ext w0)) ProcessOfflineState) eqn:S.
          - assert (Hs : EnvState (ext w0) = ProcessOfflineState)
              by (destruct (EnvState (ext w0)); try discriminate S; reflexivity).
            rewrite (powerSwitch_Start_offline w0 Hs) in *.
            cbn [fst snd] in *. right. apply startPhase_success. exact Hr.
          - assert (Hs : EnvState (ext w0) <> ProcessOfflineState)
              by (intros E; rewrite E in S; discriminate S).
            rewrite (powerSwitch_Start_running w0 Hs) in Hr. discriminate Hr. }
        destruct (String.eqb a PowerActionStop) eqn:E2.
        { apply String.eqb_eq in E2. subst a. right. right. left.
          split; [reflexivity|]. apply Hmid.
          rewrite powerSwitch_Stop in *. destruct w0 as [s0 x0 sp0].
          cbv [Environment_WaitForStop bind getExt putExt emit ret ext fst snd]
            in *.
          destruct (EnvWaitForStop 600 true x0) as [x' [msg|]];
            cbn [fst snd foreign app] in *; [discriminate Hr|].
          left. reflexivity. }
        destruct (String.eqb a PowerActionRestart) eqn:E3.
        { apply String.eqb_eq in E3. subst a. right. left.
          split; [reflexivity|].
          rewrite powerSwitch_Restart in *. cbv zeta in *.
          destruct (snd (EnvWaitForStop 600 true (ext w0))) as [msg|];
            cbn [fst snd] in *; [discriminate Hr|].
          split; apply Hmid; [left; reflexivity|].
          right. apply startPhase_success. exact Hr. }
        assert (Hv : IsValid a = false)
          by (unfold IsValid; rewrite E1, E2, Ha, E3; reflexivity).
        rewrite (powerSwitch_unknown a w0 Hv) in Hr. discriminate Hr.
      * rewrite (HandlePowerAction_refused _ _ _ Hg Ha Ho) in Hr.
        discriminate Hr.
  - rewrite (HandlePowerAction_gated _ _ _ Hg) in Hr. discriminate Hr.
Qed.

End Discipline.

Lemma HandlePowerAction_under_lock_witness :
  binaryLock (idleServer 0)
  /\ PowerActionRestart <> PowerActionTerminate
  /\ underLock false
       (events (HandlePowerAction PowerActionRestart [30] (world (idleServer 0) quiet)))
     = true.
Proof.
  assert (Hb : binaryLock (idleServer 0)) by (cbn; lia).
  assert (Ha : PowerActionRestart <> PowerActionTerminate) by discriminate.
  split; [exact Hb|]. split; [exact Ha|].
  exact (HandlePowerAction_under_lock PowerActionRestart [30]
           (world (idleServer 0) quiet) Hb Ha).
Defined.

Lemma HandlePowerAction_success_witness :
  binaryLock (idleServer 0)
  /\ result (HandlePowerAction PowerActionRestart [] (world (idleServer 0) quiet))
     = Ret None
  /\ In (EStart None)
        (events (HandlePowerAction PowerActionRestart [] (world (idleServer 0) quiet))).
Proof.
  assert (Hb : binaryLock (idleServer 0)) by (cbn; lia).
  assert (Hr : result (HandlePowerAction PowerActionRestart []
                         (world (idleServer 0) quiet)) = Ret None)
    by reflexivity.
  split; [exact Hb|]. split; [exact Hr|].
  destruct (HandlePowerAction_success PowerActionRestart []
              (world (idleServer 0) quiet) Hb Hr)
    as [[E _] | [[_ [_ I]] | [[E _] | [E _]]]];
    [discriminate E | exact I | discriminate E | discriminate E].
Defined.

Lemma getServerLogs_size_witness :
  Atoi "5000" = 5000
  /\ exists l,
       l = 100
       /\ result (getServerLogs (Some "5000") 0%nat (twoServers quiet))
          = Ret (match snd (ReadLogfile l quiet) with
                 | Some msg => ServerError (Foreign msg)
                 | None => JSON StatusOK (snd (fst (ReadLogfile l quiet)))
                 end).
Proof.
  split; [reflexivity|].
  destruct (getServerLogs_size (Some "5000") 0%nat (twoServers quiet))
    as (l & _ & _ & Hout & Hr & _).
  exists l. split; [apply Hout; right; vm_compute; reflexivity | exact Hr].
Defined.

Lemma postServerCommands_sends_witness :
  result (postServerCommands (Some ["say hi"; ""; "stop"]) 0%nat (twoServers running))
  = Ret (Answered (Status StatusNoContent))
  /\ result (postServerCommands (Some ["say hi"]) 0%nat (twoServers quiet))
     = Ret (Answered (AbortWithStatusJSON StatusBadGateway stoppedMessage)).
Proof.
  pose proof (postServerCommands_sends (Some ["say hi"; ""; "stop"]) 0%nat
                (twoServers running)) as P.
  pose proof (postServerCommands_sends (Some ["say hi"]) 0%nat
                (twoServers quiet)) as Q.
  cbv zeta in P, Q.
  split; [exact (proj1 P) | exact (proj1 Q)].
Defined.
